(** * Ibis expression compiler: data types, literal formatting, dialect
      registries and grouped windows

    A shallow embedding of the parts of the Ibis sources that the
    specification talks about:

    - [ibis/expr/datatypes/core.py]: the class taxonomy of data types, the
      kind predicates, [Decimal.__init__] and the integer [bounds];
    - [ibis/backends/base/sql/registry/literal.py]: the generic literal
      formatter;
    - [ibis/backends/bigquery/registry.py] and
      [ibis/backends/duckdb/registry.py]: the dialect rules and the layered
      operation registries with their denylists;
    - [ibis/expr/types/groupby.py]: [GroupedTable] and its window frames.

    Python exceptions are values of [exn]; a computation that may raise
    returns a [result]. *)

From Stdlib Require Import ZArith String Ascii List Bool Lia.
From Stdlib Require Import Floats.SpecFloat.
From stdpp Require Import base option list gmap strings pretty.
Import ListNotations.

Set Warnings "-register-all".

Local Open Scope string_scope.
Local Open Scope Z_scope.

(** ** Python runtime values, exceptions and [repr] *)

Module Py.

Inductive exn : Type :=
| TypeError (msg : string)
| ValueError (msg : string)
| AttributeError (msg : string)
| KeyError (msg : string)
| UnboundLocalError (msg : string)
| AssertionError (msg : string)
| OverflowError (msg : string)
| InvalidOperation (msg : string)
| RecursionError
| NotImplementedError (msg : string)
| UnsupportedOperationError (msg : string)
| OperationNotDefinedError (msg : string).

Inductive result (A : Type) : Type :=
| Ok (a : A)
| Raise (e : exn).
Arguments Ok {A} a.
Arguments Raise {A} e.

Definition bind {A B : Type} (m : result A) (k : A -> result B) : result B :=
  match m with
  | Ok a => k a
  | Raise e => Raise e
  end.

Definition is_ok {A : Type} (m : result A) : bool :=
  match m with Ok _ => true | Raise _ => false end.

(** Evaluates a list of computations left to right, stopping at the first
    exception, the way a Python comprehension or [map] does. *)
Fixpoint sequence {A : Type} (l : list (result A)) : result (list A) :=
  match l with
  | [] => Ok []
  | m :: l' => bind m (fun a => bind (sequence l') (fun tl => Ok (a :: tl)))
  end.

(** [sep.join(parts)] *)
Fixpoint join (sep : string) (parts : list string) : string :=
  match parts with
  | [] => EmptyString
  | [s] => s
  | s :: rest => s +:+ sep +:+ join sep rest
  end.

(** [s * n] for a bool or small count [n] *)
Definition str_mul (s : string) (b : bool) : string := if b then s else EmptyString.

Definition squote : ascii := ascii_of_nat 39.
Definition dquote : ascii := ascii_of_nat 34.
Definition backslash : ascii := ascii_of_nat 92.

Fixpoint has_char (c : ascii) (s : string) : bool :=
  match s with
  | EmptyString => false
  | String c' s' => Ascii.eqb c c' || has_char c s'
  end.

Definition hex_digit (n : nat) : ascii :=
  if (n <? 10)%nat then ascii_of_nat (48 + n) else ascii_of_nat (87 + n).

Definition escape_char (quote c : ascii) : string :=
  let n := nat_of_ascii c in
  if Ascii.eqb c backslash then String backslash (String backslash EmptyString)
  else if Ascii.eqb c quote then String backslash (String quote EmptyString)
  else if (n =? 10)%nat then String backslash "n"
  else if (n =? 13)%nat then String backslash "r"
  else if (n =? 9)%nat then String backslash "t"
  else if (n <? 32)%nat || (n =? 127)%nat then
    String backslash
      (String "x" (String (hex_digit (n / 16)) (String (hex_digit (n mod 16)) EmptyString)))
  else String c EmptyString.

Fixpoint escape (quote : ascii) (s : string) : string :=
  match s with
  | EmptyString => EmptyString
  | String c s' => escape_char quote c +:+ escape quote s'
  end.

(** [repr] of a [str]: single quotes unless the text holds a single quote
    and no double quote; the quote character, the backslash and the control
    characters are escaped.  Characters above 127 are kept as they are. *)
Definition repr_str (s : string) : string :=
  let quote := if has_char squote s && negb (has_char dquote s) then dquote else squote in
  String quote (escape quote s +:+ String quote EmptyString).

(** [repr] and [str] of an [int] *)
Definition repr_int (z : Z) : string := pretty z.

(** [decimal.Decimal] values: only what the formatters ask of them. *)
Inductive pydecimal : Type :=
| DecNaN (signed : bool)
| DecInf (signed : bool)
| DecFinite (signed : bool) (is_zero : bool) (text : string).

(** Python values that can be carried by a literal.  [VOpaque] stands for
    an object of any other class ([datetime.date], [uuid.UUID], ...), known
    by its class name and by the texts [str] and [repr] give for it. *)
Inductive pyvalue : Type :=
| VNone
| VBool (b : bool)
| VInt (z : Z)
| VFloat (f : spec_float)
| VStr (s : string)
| VBytes (s : string)
| VDecimal (d : pydecimal)
| VList (items : list pyvalue)
| VDict (items : list (string * pyvalue))
| VOpaque (class_name : string) (str_text repr_text : string).

(** [math.isfinite], [math.isnan], [math.isinf] on a float *)
Definition float_isfinite (f : spec_float) : bool :=
  match f with
  | S754_zero _ | S754_finite _ _ _ => true
  | S754_infinity _ | S754_nan => false
  end.

Definition float_isnan (f : spec_float) : bool :=
  match f with S754_nan => true | _ => false end.

Definition float_isinf (f : spec_float) : bool :=
  match f with S754_infinity _ => true | _ => false end.

(** [f > 0] and [f < 0] on floats (false on NaN) *)
Definition float_gt0 (f : spec_float) : bool := SFltb (S754_zero false) f.
Definition float_lt0 (f : spec_float) : bool := SFltb f (S754_zero false).

(** [isinstance(v, numbers.Integral)]: [int] and its subclass [bool] *)
Definition is_Integral (v : pyvalue) : bool :=
  match v with VInt _ | VBool _ => true | _ => false end.

Definition int_of (v : pyvalue) : Z :=
  match v with VInt z => z | VBool b => Z.b2z b | _ => 0 end.

(** [type(v)] printed: [<class 'int'>] *)
Definition class_name_of (v : pyvalue) : string :=
  match v with
  | VNone => "NoneType"
  | VBool _ => "bool"
  | VInt _ => "int"
  | VFloat _ => "float"
  | VStr _ => "str"
  | VBytes _ => "bytes"
  | VDecimal _ => "decimal.Decimal"
  | VList _ => "list"
  | VDict _ => "dict"
  | VOpaque c _ _ => c
  end.

Definition str_type (v : pyvalue) : string :=
  "<class '" +:+ class_name_of v +:+ "'>".

(** Substring test, for statements about what a text mentions. *)
Fixpoint substringb (needle s : string) : bool :=
  String.prefix needle s
  || match s with
     | EmptyString => false
     | String _ s' => substringb needle s'
     end.

End Py.

Import Py.

Notation "x <- m ;; k" := (Py.bind m (fun x => k))
  (at level 100, m at next level, right associativity).

(** ** Temporal units

    The unit enumerations live in [ibis/common/enums.py], which is not part
    of the sources at hand; their members are declared here as the registries
    name them ([DateUnit], [TimeUnit], [TimestampUnit], [IntervalUnit], each
    member with its [name] and its short [value]).  Members of different
    enumerations are different objects even when they share a name. *)

Module enums.

Module DateUnit.
Inductive t : Type := YEAR | QUARTER | MONTH | WEEK | DAY.
Definition all : list t := [YEAR; QUARTER; MONTH; WEEK; DAY].
Definition name (u : t) : string :=
  match u with
  | YEAR => "YEAR" | QUARTER => "QUARTER" | MONTH => "MONTH"
  | WEEK => "WEEK" | DAY => "DAY"
  end.
Definition value (u : t) : string :=
  match u with
  | YEAR => "Y" | QUARTER => "Q" | MONTH => "M" | WEEK => "W" | DAY => "D"
  end.
End DateUnit.

Module TimeUnit.
Inductive t : Type :=
  HOUR | MINUTE | SECOND | MILLISECOND | MICROSECOND | NANOSECOND.
Definition all : list t :=
  [HOUR; MINUTE; SECOND; MILLISECOND; MICROSECOND; NANOSECOND].
Definition name (u : t) : string :=
  match u with
  | HOUR => "HOUR" | MINUTE => "MINUTE" | SECOND => "SECOND"
  | MILLISECOND => "MILLISECOND" | MICROSECOND => "MICROSECOND"
  | NANOSECOND => "NANOSECOND"
  end.
Definition value (u : t) : string :=
  match u with
  | HOUR => "h" | MINUTE => "m" | SECOND => "s"
  | MILLISECOND => "ms" | MICROSECOND => "us" | NANOSECOND => "ns"
  end.
End TimeUnit.

Module TimestampUnit.
Inductive t : Type := SECOND | MILLISECOND | MICROSECOND | NANOSECOND.
Definition all : list t := [SECOND; MILLISECOND; MICROSECOND; NANOSECOND].
Definition name (u : t) : string :=
  match u with
  | SECOND => "SECOND" | MILLISECOND => "MILLISECOND"
  | MICROSECOND => "MICROSECOND" | NANOSECOND => "NANOSECOND"
  end.
Definition value (u : t) : string :=
  match u with
  | SECOND => "s" | MILLISECOND => "ms" | MICROSECOND => "us" | NANOSECOND => "ns"
  end.
End TimestampUnit.

Module IntervalUnit.
Inductive t : Type :=
  YEAR | QUARTER | MONTH | WEEK | DAY
| HOUR | MINUTE | SECOND | MILLISECOND | MICROSECOND | NANOSECOND.
Definition all : list t :=
  [YEAR; QUARTER; MONTH; WEEK; DAY;
   HOUR; MINUTE; SECOND; MILLISECOND; MICROSECOND; NANOSECOND].
Definition name (u : t) : string :=
  match u with
  | YEAR => "YEAR" | QUARTER => "QUARTER" | MONTH => "MONTH"
  | WEEK => "WEEK" | DAY => "DAY"
  | HOUR => "HOUR" | MINUTE => "MINUTE" | SECOND => "SECOND"
  | MILLISECOND => "MILLISECOND" | MICROSECOND => "MICROSECOND"
  | NANOSECOND => "NANOSECOND"
  end.
Definition value (u : t) : string :=
  match u with
  | YEAR => "Y" | QUARTER => "Q" | MONTH => "M" | WEEK => "W" | DAY => "D"
  | HOUR => "h" | MINUTE => "m" | SECOND => "s"
  | MILLISECOND => "ms" | MICROSECOND => "us" | NANOSECOND => "ns"
  end.
End IntervalUnit.

(** A unit object of any of the four enumerations. *)
Inductive Unit : Type :=
| OfDate (u : DateUnit.t)
| OfTime (u : TimeUnit.t)
| OfTimestamp (u : TimestampUnit.t)
| OfInterval (u : IntervalUnit.t).

#[global] Instance DateUnit_eq_dec : EqDecision DateUnit.t.
Proof. solve_decision. Defined.
#[global] Instance TimeUnit_eq_dec : EqDecision TimeUnit.t.
Proof. solve_decision. Defined.
#[global] Instance TimestampUnit_eq_dec : EqDecision TimestampUnit.t.
Proof. solve_decision. Defined.
#[global] Instance IntervalUnit_eq_dec : EqDecision IntervalUnit.t.
Proof. solve_decision. Defined.
#[global] Instance Unit_eq_dec : EqDecision Unit.
Proof. solve_decision. Defined.

Definition class_name (u : Unit) : string :=
  match u with
  | OfDate _ => "DateUnit"
  | OfTime _ => "TimeUnit"
  | OfTimestamp _ => "TimestampUnit"
  | OfInterval _ => "IntervalUnit"
  end.

(** [unit.name] *)
Definition name (u : Unit) : string :=
  match u with
  | OfDate d => DateUnit.name d
  | OfTime t => TimeUnit.name t
  | OfTimestamp t => TimestampUnit.name t
  | OfInterval i => IntervalUnit.name i
  end.

(** [unit.value], also reachable as [unit.short] *)
Definition value (u : Unit) : string :=
  match u with
  | OfDate d => DateUnit.value d
  | OfTime t => TimeUnit.value t
  | OfTimestamp t => TimestampUnit.value t
  | OfInterval i => IntervalUnit.value i
  end.

Definition short (u : Unit) : string := value u.

(** [str(unit)] of an [Enum] member: [IntervalUnit.SECOND] *)
Definition str (u : Unit) : string := class_name u +:+ "." +:+ name u.

(** [repr(unit)] of an [Enum] member: [<IntervalUnit.SECOND: 's'>] *)
Definition repr (u : Unit) : string :=
  "<" +:+ class_name u +:+ "." +:+ name u +:+ ": " +:+ repr_str (value u) +:+ ">".

Definition lower_char (c : ascii) : ascii :=
  let n := nat_of_ascii c in
  if (65 <=? n)%nat && (n <=? 90)%nat then ascii_of_nat (n + 32) else c.

Fixpoint lower (s : string) : string :=
  match s with
  | EmptyString => EmptyString
  | String c s' => String (lower_char c) (lower s')
  end.

Fixpoint upper (s : string) : string :=
  match s with
  | EmptyString => EmptyString
  | String c s' =>
      let n := nat_of_ascii c in
      String (if (97 <=? n)%nat && (n <=? 122)%nat then ascii_of_nat (n - 32) else c)
             (upper s')
  end.

(** [unit.singular]: the lower-cased member name *)
Definition singular (u : Unit) : string := lower (name u).

End enums.

(** ** Data types ([ibis/expr/datatypes/core.py]) *)

Module dt.

(** The classes of the module, in the order of the source. *)
Inductive cls : Type :=
| C_DataType | C_Unknown | C_Primitive | C_Variadic | C_Parametric
| C_Null | C_Boolean | C_Numeric | C_Integer | C_String | C_Binary
| C_Temporal | C_Date | C_Time | C_Timestamp
| C_SignedInteger | C_UnsignedInteger | C_Floating
| C_Int8 | C_Int16 | C_Int32 | C_Int64
| C_UInt8 | C_UInt16 | C_UInt32 | C_UInt64
| C_Float16 | C_Float32 | C_Float64
| C_Decimal | C_Interval | C_Struct | C_Array | C_Set | C_Map | C_JSON
| C_GeoSpatial | C_Point | C_LineString | C_Polygon
| C_MultiLineString | C_MultiPoint | C_MultiPolygon
| C_UUID | C_MACADDR | C_INET.

Scheme Equality for cls.

Definition all_classes : list cls :=
  [C_DataType; C_Unknown; C_Primitive; C_Variadic; C_Parametric;
   C_Null; C_Boolean; C_Numeric; C_Integer; C_String; C_Binary;
   C_Temporal; C_Date; C_Time; C_Timestamp;
   C_SignedInteger; C_UnsignedInteger; C_Floating;
   C_Int8; C_Int16; C_Int32; C_Int64;
   C_UInt8; C_UInt16; C_UInt32; C_UInt64;
   C_Float16; C_Float32; C_Float64;
   C_Decimal; C_Interval; C_Struct; C_Array; C_Set; C_Map; C_JSON;
   C_GeoSpatial; C_Point; C_LineString; C_Polygon;
   C_MultiLineString; C_MultiPoint; C_MultiPolygon;
   C_UUID; C_MACADDR; C_INET].

(** [cls.__name__] *)
Definition class_name (c : cls) : string :=
  match c with
  | C_DataType => "DataType" | C_Unknown => "Unknown"
  | C_Primitive => "Primitive" | C_Variadic => "Variadic"
  | C_Parametric => "Parametric" | C_Null => "Null" | C_Boolean => "Boolean"
  | C_Numeric => "Numeric" | C_Integer => "Integer" | C_String => "String"
  | C_Binary => "Binary" | C_Temporal => "Temporal" | C_Date => "Date"
  | C_Time => "Time" | C_Timestamp => "Timestamp"
  | C_SignedInteger => "SignedInteger"
  | C_UnsignedInteger => "UnsignedInteger" | C_Floating => "Floating"
  | C_Int8 => "Int8" | C_Int16 => "Int16" | C_Int32 => "Int32"
  | C_Int64 => "Int64" | C_UInt8 => "UInt8" | C_UInt16 => "UInt16"
  | C_UInt32 => "UInt32" | C_UInt64 => "UInt64"
  | C_Float16 => "Float16" | C_Float32 => "Float32" | C_Float64 => "Float64"
  | C_Decimal => "Decimal" | C_Interval => "Interval" | C_Struct => "Struct"
  | C_Array => "Array" | C_Set => "Set" | C_Map => "Map" | C_JSON => "JSON"
  | C_GeoSpatial => "GeoSpatial" | C_Point => "Point"
  | C_LineString => "LineString" | C_Polygon => "Polygon"
  | C_MultiLineString => "MultiLineString" | C_MultiPoint => "MultiPoint"
  | C_MultiPolygon => "MultiPolygon"
  | C_UUID => "UUID" | C_MACADDR => "MACADDR" | C_INET => "INET"
  end.

(** The base classes written in each [class] statement.  The bases that are
    not data types ([Concrete], [Coercible], [Singleton], [MapSet]) are left
    out: no kind predicate tests for them. *)
Definition bases (c : cls) : list cls :=
  match c with
  | C_DataType => []
  | C_Unknown => [C_DataType]
  | C_Primitive => [C_DataType]
  | C_Variadic => [C_DataType]
  | C_Parametric => [C_DataType]
  | C_Null => [C_Primitive]
  | C_Boolean => [C_Primitive]
  | C_Numeric => [C_DataType]
  | C_Integer => [C_Primitive; C_Numeric]
  | C_String => [C_Variadic]
  | C_Binary => [C_Variadic]
  | C_Temporal => [C_DataType]
  | C_Date => [C_Temporal; C_Primitive]
  | C_Time => [C_Temporal; C_Primitive]
  | C_Timestamp => [C_Temporal; C_Parametric]
  | C_SignedInteger => [C_Integer]
  | C_UnsignedInteger => [C_Integer]
  | C_Floating => [C_Primitive; C_Numeric]
  | C_Int8 | C_Int16 | C_Int32 | C_Int64 => [C_SignedInteger]
  | C_UInt8 | C_UInt16 | C_UInt32 | C_UInt64 => [C_UnsignedInteger]
  | C_Float16 | C_Float32 | C_Float64 => [C_Floating]
  | C_Decimal => [C_Numeric; C_Parametric]
  | C_Interval => [C_Parametric]
  | C_Struct => [C_Parametric]
  | C_Array => [C_Variadic; C_Parametric]
  | C_Set => [C_Variadic; C_Parametric]
  | C_Map => [C_Variadic; C_Parametric]
  | C_JSON => [C_Variadic]
  | C_GeoSpatial => [C_DataType]
  | C_Point | C_LineString | C_Polygon
  | C_MultiLineString | C_MultiPoint | C_MultiPolygon => [C_GeoSpatial]
  | C_UUID => [C_DataType]
  | C_MACADDR => [C_String]
  | C_INET => [C_String]
  end.

(** [issubclass(c, d)]: [d] is [c] or is reached from [c] through [bases].
    [depth] bounds the length of the chain that is followed. *)
Fixpoint issubclass_within (depth : nat) (c d : cls) : bool :=
  cls_beq c d
  || match depth with
     | O => false
     | S depth' => existsb (fun b => issubclass_within depth' b d) (bases c)
     end.

(** No chain of bases in the module is longer than four classes. *)
Definition issubclass (c d : cls) : bool := issubclass_within 6 c d.

(** [Enum = String] *)
Definition C_Enum : cls := C_String.

(** Instances.  The classes without parameters of their own share the
    constructor [Plain]; every instance carries [nullable]. *)
Inductive DataType : Type :=
| Plain (c : cls) (nullable : bool)
| Decimal (precision scale : option Z) (nullable : bool)
| Timestamp (timezone : option string) (scale : option Z) (nullable : bool)
| Interval (unit : enums.Unit) (value_type : DataType) (nullable : bool)
| Struct (fields : list (string * DataType)) (nullable : bool)
| Array (value_type : DataType) (nullable : bool)
| Set_ (value_type : DataType) (nullable : bool)
| Map (key_type value_type : DataType) (nullable : bool)
| GeoSpatial (c : cls) (geotype : option string) (srid : option Z) (nullable : bool).

(** [type(self)] *)
Definition class_of (d : DataType) : cls :=
  match d with
  | Plain c _ => c
  | Decimal _ _ _ => C_Decimal
  | Timestamp _ _ _ => C_Timestamp
  | Interval _ _ _ => C_Interval
  | Struct _ _ => C_Struct
  | Array _ _ => C_Array
  | Set_ _ _ => C_Set
  | Map _ _ _ => C_Map
  | GeoSpatial c _ _ _ => c
  end.

Definition nullable (d : DataType) : bool :=
  match d with
  | Plain _ n | Decimal _ _ n | Timestamp _ _ n | Interval _ _ n
  | Struct _ n | Array _ n | Set_ _ n | Map _ _ n | GeoSpatial _ _ _ n => n
  end.

Definition isinstance (d : DataType) (c : cls) : bool :=
  issubclass (class_of d) c.

(** [self.name] *)
Definition name (d : DataType) : string := class_name (class_of d).

(** *** Kind predicates *)

Definition is_array (self : DataType) : bool := isinstance self C_Array.
Definition is_binary (self : DataType) : bool := isinstance self C_Binary.
Definition is_boolean (self : DataType) : bool := isinstance self C_Boolean.
Definition is_date (self : DataType) : bool := isinstance self C_Date.
Definition is_decimal (self : DataType) : bool := isinstance self C_Decimal.
Definition is_enum (self : DataType) : bool := isinstance self C_Enum.
Definition is_float16 (self : DataType) : bool := isinstance self C_Float16.
Definition is_float32 (self : DataType) : bool := isinstance self C_Float32.
Definition is_float64 (self : DataType) : bool := isinstance self C_Float64.
Definition is_floating (self : DataType) : bool := isinstance self C_Floating.
Definition is_geospatial (self : DataType) : bool := isinstance self C_GeoSpatial.
Definition is_inet (self : DataType) : bool := isinstance self C_INET.
Definition is_int16 (self : DataType) : bool := isinstance self C_Int16.
Definition is_int32 (self : DataType) : bool := isinstance self C_Int32.
Definition is_int64 (self : DataType) : bool := isinstance self C_Int64.
Definition is_int8 (self : DataType) : bool := isinstance self C_Int8.
Definition is_integer (self : DataType) : bool := isinstance self C_Integer.
Definition is_interval (self : DataType) : bool := isinstance self C_Interval.
Definition is_json (self : DataType) : bool := isinstance self C_JSON.
Definition is_linestring (self : DataType) : bool := isinstance self C_LineString.
Definition is_macaddr (self : DataType) : bool := isinstance self C_MACADDR.
Definition is_map (self : DataType) : bool := isinstance self C_Map.
Definition is_multilinestring (self : DataType) : bool :=
  isinstance self C_MultiLineString.
Definition is_multipoint (self : DataType) : bool := isinstance self C_MultiPoint.
Definition is_multipolygon (self : DataType) : bool := isinstance self C_MultiPolygon.
Definition is_nested (self : DataType) : bool :=
  isinstance self C_Array || isinstance self C_Map
  || isinstance self C_Struct || isinstance self C_Set.
Definition is_null (self : DataType) : bool := isinstance self C_Null.
Definition is_numeric (self : DataType) : bool := isinstance self C_Numeric.
Definition is_point (self : DataType) : bool := isinstance self C_Point.
Definition is_polygon (self : DataType) : bool := isinstance self C_Polygon.
Definition is_primitive (self : DataType) : bool := isinstance self C_Primitive.
Definition is_set (self : DataType) : bool := isinstance self C_Set.
Definition is_signed_integer (self : DataType) : bool :=
  isinstance self C_SignedInteger.
Definition is_string (self : DataType) : bool := isinstance self C_String.
Definition is_struct (self : DataType) : bool := isinstance self C_Struct.
Definition is_temporal (self : DataType) : bool := isinstance self C_Temporal.
Definition is_time (self : DataType) : bool := isinstance self C_Time.
Definition is_timestamp (self : DataType) : bool := isinstance self C_Timestamp.
Definition is_uint16 (self : DataType) : bool := isinstance self C_UInt16.
Definition is_uint32 (self : DataType) : bool := isinstance self C_UInt32.
Definition is_uint64 (self : DataType) : bool := isinstance self C_UInt64.
Definition is_uint8 (self : DataType) : bool := isinstance self C_UInt8.
Definition is_unknown (self : DataType) : bool := isinstance self C_Unknown.
Definition is_unsigned_integer (self : DataType) : bool :=
  isinstance self C_UnsignedInteger.
Definition is_uuid (self : DataType) : bool := isinstance self C_UUID.
Definition is_variadic (self : DataType) : bool := isinstance self C_Variadic.

(** *** [__str__] and [_pretty_piece] *)

Definition present {A : Type} (f : A -> string) (o : option A) : list string :=
  match o with Some a => [f a] | None => [] end.

Fixpoint str (self : DataType) : string :=
  let _pretty_piece :=
    match self with
    | Plain _ _ => EmptyString
    | Timestamp timezone scale _ =>
        let pieces := (present repr_int scale ++ present repr_str timezone)%list in
        match pieces with
        | [] => EmptyString
        | _ => "(" +:+ join ", " pieces +:+ ")"
        end
    | Decimal precision scale _ =>
        match precision, scale with
        | None, None => EmptyString
        | _, _ =>
            let args :=
              ([match precision with Some p => repr_int p | None => "_" end]
               ++ present repr_int scale)%list in
            "(" +:+ join ", " args +:+ ")"
        end
    | Interval unit _ _ => "(" +:+ enums.repr unit +:+ ")"
    | Struct fields _ =>
        let pairs :=
          (fix go (l : list (string * DataType)) : list string :=
             match l with
             | [] => []
             | (n, t) :: l' => (n +:+ ": " +:+ str t) :: go l'
             end) fields in
        "<" +:+ join ", " pairs +:+ ">"
    | Array value_type _ => "<" +:+ str value_type +:+ ">"
    | Set_ value_type _ => "<" +:+ str value_type +:+ ">"
    | Map key_type value_type _ =>
        "<" +:+ str key_type +:+ ", " +:+ str value_type +:+ ">"
    | GeoSpatial _ geotype srid _ =>
        match geotype with Some g => ":" +:+ g | None => EmptyString end
        +:+ match srid with Some s => ";" +:+ repr_int s | None => EmptyString end
    end in
  str_mul "!" (negb (nullable self)) +:+ enums.lower (name self) +:+ _pretty_piece.

(** *** Integer bounds *)

Record Bounds : Type := mkBounds { lower : Z; upper : Z }.

(** The class attribute [nbytes] of the concrete integer and floating
    classes; the abstract classes have none. *)
Definition nbytes (c : cls) : option Z :=
  match c with
  | C_Int8 => Some 1 | C_Int16 => Some 2 | C_Int32 => Some 4 | C_Int64 => Some 8
  | C_UInt8 => Some 1 | C_UInt16 => Some 2 | C_UInt32 => Some 4 | C_UInt64 => Some 8
  | C_Float16 => Some 2 | C_Float32 => Some 4 | C_Float64 => Some 8
  | _ => None
  end.

(** [SignedInteger.bounds] *)
Definition SignedInteger_bounds (nbytes : Z) : Bounds :=
  let exp := nbytes * 8 - 1 in
  let upper := Z.shiftl 1 exp - 1 in
  mkBounds (Z.lnot upper) upper.

(** [UnsignedInteger.bounds] *)
Definition UnsignedInteger_bounds (nbytes : Z) : Bounds :=
  let exp := nbytes * 8 - 1 in
  let upper := Z.shiftl 1 exp in
  mkBounds 0 upper.

(** [self.bounds]: the property of [SignedInteger], of [UnsignedInteger] and
    of [Interval] (which forwards to its [value_type]); any other type has no
    such attribute. *)
Fixpoint bounds (self : DataType) : result Bounds :=
  match self with
  | Plain c _ =>
      if issubclass c C_SignedInteger then
        match nbytes c with
        | Some n => Ok (SignedInteger_bounds n)
        | None => Raise (AttributeError "nbytes")
        end
      else if issubclass c C_UnsignedInteger then
        match nbytes c with
        | Some n => Ok (UnsignedInteger_bounds n)
        | None => Raise (AttributeError "nbytes")
        end
      else Raise (AttributeError "bounds")
  | Interval _ value_type _ => bounds value_type
  | _ => Raise (AttributeError "bounds")
  end.

(** *** [Decimal.__init__]

    [precision] and [scale] are arbitrary Python objects ([None] by default);
    [nullable] stands for the keyword arguments handed on to the inherited
    initializer, which stores the validated fields. *)
Definition Decimal_init (precision scale : pyvalue) (nullable : bool)
  : result DataType :=
  _ <- match precision with
       | VNone => Ok tt
       | _ =>
           if negb (is_Integral precision) then
             Raise (TypeError ("Decimal type precision must be an integer; got "
                               +:+ str_type precision))
           else if int_of precision <? 0 then
             Raise (ValueError "Decimal type precision cannot be negative")
           else if int_of precision =? 0 then
             Raise (ValueError "Decimal type precision cannot be zero")
           else Ok tt
       end ;;
  _ <- match scale with
       | VNone => Ok tt
       | _ =>
           if negb (is_Integral scale) then
             Raise (TypeError "Decimal type scale must be an integer")
           else if int_of scale <? 0 then
             Raise (ValueError "Decimal type scale cannot be negative")
           else if match precision with VNone => false | _ => true end
                   && (int_of precision <? int_of scale) then
             Raise (ValueError
                      ("Decimal type precision must be greater than or equal to "
                       +:+ "scale. Got precision=" +:+ repr_int (int_of precision)
                       +:+ " and scale=" +:+ repr_int (int_of scale)))
           else Ok tt
       end ;;
  Ok (Decimal (match precision with VNone => None | v => Some (int_of v) end)
              (match scale with VNone => None | v => Some (int_of v) end)
              nullable).

(** *** Module-level instances *)

Definition null : DataType := Plain C_Null true.
Definition boolean : DataType := Plain C_Boolean true.
Definition int8 : DataType := Plain C_Int8 true.
Definition int16 : DataType := Plain C_Int16 true.
Definition int32 : DataType := Plain C_Int32 true.
Definition int64 : DataType := Plain C_Int64 true.
Definition uint8 : DataType := Plain C_UInt8 true.
Definition uint16 : DataType := Plain C_UInt16 true.
Definition uint32 : DataType := Plain C_UInt32 true.
Definition uint64 : DataType := Plain C_UInt64 true.
Definition float16 : DataType := Plain C_Float16 true.
Definition float32 : DataType := Plain C_Float32 true.
Definition float64 : DataType := Plain C_Float64 true.
Definition binary : DataType := Plain C_Binary true.
Definition date : DataType := Plain C_Date true.
Definition time : DataType := Plain C_Time true.
Definition timestamp : DataType := Timestamp None None true.
Definition interval : DataType :=
  Interval (enums.OfInterval enums.IntervalUnit.SECOND) (Plain C_Int32 true) true.
Definition json : DataType := Plain C_JSON true.
Definition uuid : DataType := Plain C_UUID true.
Definition macaddr : DataType := Plain C_MACADDR true.
Definition inet : DataType := Plain C_INET true.
Definition decimal : DataType := Decimal None None true.
Definition unknown : DataType := Plain C_Unknown true.
(** *** [largest] *)

(** [self.largest]: the property of [SignedInteger], [UnsignedInteger],
    [Floating] and [Decimal].  [Decimal.largest] calls the class again with
    the widened fields and nothing else, so the result goes through
    [__init__] and is nullable. *)
Definition largest (self : DataType) : result DataType :=
  match self with
  | Plain c _ =>
      if issubclass c C_SignedInteger then Ok int64
      else if issubclass c C_UnsignedInteger then Ok uint64
      else if issubclass c C_Floating then Ok float64
      else Raise (AttributeError "largest")
  | Decimal precision scale _ =>
      Decimal_init
        (match precision with Some p => VInt (Z.max p 38) | None => VNone end)
        (match scale with Some s => VInt (Z.max s 2) | None => VNone end)
        true
  | _ => Raise (AttributeError "largest")
  end.

(** *** [Struct] *)

(** [d[key] = v] on a dict kept as the list of its items: a key met again
    keeps its place and takes the new value. *)
Fixpoint dict_set {V : Type} (d : list (string * V)) (key : string) (v : V)
  : list (string * V) :=
  match d with
  | [] => [(key, v)]
  | (k, old) :: rest =>
      if String.eqb k key then (k, v) :: rest else (k, old) :: dict_set rest key v
  end.

(** [d.get(key)] *)
Definition dict_get {V : Type} (d : list (string * V)) (key : string) : option V :=
  option_map snd (List.find (fun kv => String.eqb (fst kv) key) d).

(** [dict(pairs)] *)
Definition dict_of_pairs {V : Type} (pairs : list (string * V)) : list (string * V) :=
  fold_left (fun d kv => dict_set d (fst kv) (snd kv)) pairs [].

(** [Struct.from_tuples(pairs, nullable)], the types being given as data
    types already *)
Definition Struct_from_tuples (pairs : list (string * DataType)) (nullable : bool)
  : DataType :=
  Struct (dict_of_pairs pairs) nullable.

(** [self.fields] of a struct *)
Definition fields (self : DataType) : list (string * DataType) :=
  match self with Struct fields _ => fields | _ => [] end.

(** [self.names], [self.types], [len(self)] and [self[key]] *)
Definition names (self : DataType) : list string := List.map fst (fields self).
Definition types (self : DataType) : list DataType := List.map snd (fields self).
Definition Struct_len (self : DataType) : nat := length (fields self).
Definition Struct_getitem (self : DataType) (key : string) : result DataType :=
  match List.find (fun kv => String.eqb (fst kv) key) (fields self) with
  | Some kv => Ok (snd kv)
  | None => Raise (KeyError key)
  end.

Definition string : DataType := Plain C_String true.

End dt.

(** ** Functions of libraries and modules outside the sources

    What the formatters call but do not define: the [repr] of a finite
    float, the inherited [__repr__] of a data type, a few methods of
    [datetime] objects, [float(x)] on objects, Base64, the BigQuery type
    names and the SQLAlchemy type of a data type.  They are parameters of
    the development. *)

Class Externals : Type := {
  repr_finite_float : spec_float -> string;
  object_float : pyvalue -> result spec_float;
  dtype_repr : dt.DataType -> string;
  strftime_ymd : pyvalue -> string;
  isoformat : pyvalue -> string;
  datetime_date : pyvalue -> pyvalue;
  b64encode_utf8 : string -> string;
  ibis_type_to_bigquery_type : dt.DataType -> string;
  get_sqla_type : dt.DataType -> string
}.

Module builtins.

Section WithExternals.
Context `{Externals}.

(** [repr(f)] and [str(f)] of a float *)
Definition repr_float (f : spec_float) : string :=
  match f with
  | S754_nan => "nan"
  | S754_infinity false => "inf"
  | S754_infinity true => "-inf"
  | _ => repr_finite_float f
  end.

(** [str(d)] of a [decimal.Decimal] *)
Definition str_decimal (d : pydecimal) : string :=
  match d with
  | DecNaN signed => str_mul "-" signed +:+ "NaN"
  | DecInf signed => str_mul "-" signed +:+ "Infinity"
  | DecFinite _ _ text => text
  end.

Fixpoint repr (v : pyvalue) : string :=
  match v with
  | VNone => "None"
  | VBool b => if b then "True" else "False"
  | VInt z => repr_int z
  | VFloat f => repr_float f
  | VStr s => repr_str s
  | VBytes s => "b" +:+ repr_str s
  | VDecimal d => "Decimal('" +:+ str_decimal d +:+ "')"
  | VList items => "[" +:+ join ", " (List.map repr items) +:+ "]"
  | VDict items =>
      "{" +:+ join ", "
                (List.map (fun kv => repr_str (fst kv) +:+ ": " +:+ repr (snd kv)) items)
          +:+ "}"
  | VOpaque _ _ repr_text => repr_text
  end.

(** [str(v)], which is also what an f-string field without conversion and
    [str.format] print *)
Definition str (v : pyvalue) : string :=
  match v with
  | VStr s => s
  | VDecimal d => str_decimal d
  | VOpaque _ str_text _ => str_text
  | _ => repr v
  end.

(** [bool(v)] *)
Definition truthy (v : pyvalue) : bool :=
  match v with
  | VNone => false
  | VBool b => b
  | VInt z => negb (z =? 0)
  | VFloat (S754_zero _) => false
  | VFloat _ => true
  | VStr s | VBytes s => negb (String.eqb s EmptyString)
  | VDecimal (DecFinite _ is_zero _) => negb is_zero
  | VDecimal _ => true
  | VList items => match items with [] => false | _ => true end
  | VDict items => match items with [] => false | _ => true end
  | VOpaque _ _ _ => true
  end.

(** [float(x)] as the [math] functions convert their argument: an [int] is
    rounded to the nearest binary64 and overflows beyond its range. *)
Definition as_float (v : pyvalue) : result spec_float :=
  match v with
  | VFloat f => Ok f
  | VBool b => Ok (if b then S754_finite false 4503599627370496 (-52) else S754_zero false)
  | VInt z =>
      let f := binary_normalize 53 1024 z 0 false in
      if float_isinf f then Raise (OverflowError "int too large to convert to float")
      else Ok f
  | VDecimal (DecNaN _) => Ok S754_nan
  | VDecimal (DecInf signed) => Ok (S754_infinity signed)
  | VDecimal (DecFinite _ _ _) => object_float v
  | VOpaque _ _ _ => object_float v
  | _ => Raise (TypeError ("must be real number, not " +:+ class_name_of v))
  end.

Definition math_isfinite (v : pyvalue) : result bool :=
  f <- as_float v ;; Ok (float_isfinite f).
Definition math_isnan (v : pyvalue) : result bool :=
  f <- as_float v ;; Ok (float_isnan f).
Definition math_isinf (v : pyvalue) : result bool :=
  f <- as_float v ;; Ok (float_isinf f).

(** [v > 0] and [v < 0] *)
Definition gt0 (v : pyvalue) : result bool :=
  match v with
  | VFloat f => Ok (float_gt0 f)
  | VInt z => Ok (0 <? z)
  | VBool b => Ok b
  | VDecimal (DecNaN _) => Raise (InvalidOperation "comparison involving NaN")
  | VDecimal (DecInf signed) => Ok (negb signed)
  | VDecimal (DecFinite signed is_zero _) => Ok (negb signed && negb is_zero)
  | _ => Raise (TypeError ("'>' not supported between instances of '"
                           +:+ class_name_of v +:+ "' and 'int'"))
  end.

Definition lt0 (v : pyvalue) : result bool :=
  match v with
  | VFloat f => Ok (float_lt0 f)
  | VInt z => Ok (z <? 0)
  | VBool _ => Ok false
  | VDecimal (DecNaN _) => Raise (InvalidOperation "comparison involving NaN")
  | VDecimal (DecInf signed) => Ok signed
  | VDecimal (DecFinite signed is_zero _) => Ok (signed && negb is_zero)
  | _ => Raise (TypeError ("'<' not supported between instances of '"
                           +:+ class_name_of v +:+ "' and 'int'"))
  end.

(** [numpy.isfinite], [numpy.isnan] and [numpy.isinf] on a Python scalar:
    defined on floats, booleans and the integers that fit a machine word. *)
Definition np_classify (test : spec_float -> bool) (v : pyvalue) : result bool :=
  match v with
  | VFloat f => Ok (test f)
  | VBool _ => Ok (test (S754_zero false))
  | VInt z =>
      if (- 2 ^ 63 <=? z) && (z <? 2 ^ 64) then Ok (test (S754_zero false))
      else Raise (TypeError "ufunc not supported for the input types")
  | _ => Raise (TypeError "ufunc not supported for the input types")
  end.

Definition np_isfinite : pyvalue -> result bool := np_classify float_isfinite.
Definition np_isnan : pyvalue -> result bool := np_classify float_isnan.
Definition np_isinf : pyvalue -> result bool := np_classify float_isinf.

(** [list(v)]: the items of a list, the keys of a dict, the characters of
    a string *)
Definition iterate (v : pyvalue) : result (list pyvalue) :=
  match v with
  | VList items => Ok items
  | VDict items => Ok (List.map (fun kv => VStr (fst kv)) items)
  | VStr s => Ok (List.map (fun c => VStr (String c EmptyString)) (list_ascii_of_string s))
  | _ => Raise (TypeError ("'" +:+ class_name_of v +:+ "' object is not iterable"))
  end.

(** [isinstance(v, datetime.date)]; [datetime.datetime] is a subclass *)
Definition is_date_object (v : pyvalue) : bool :=
  match v with
  | VOpaque c _ _ => String.eqb c "datetime.date" || String.eqb c "datetime.datetime"
  | _ => false
  end.

Definition is_datetime_object (v : pyvalue) : bool :=
  match v with
  | VOpaque c _ _ => String.eqb c "datetime.datetime"
  | _ => false
  end.

End WithExternals.

End builtins.

(** ** Operation nodes and translators

    The operation classes ([ibis.expr.operations]) and the translator classes
    are declared outside the sources.  A node is known by its class name, by
    its arguments in the order of its signature ([op.args]) and by its
    derived [output_dtype] (node constructors validate the arguments, so the
    rules below meet only well-formed nodes; on any other shape they fail);
    a translator is known by its [translate] method. *)

Module ops.

Inductive Arg (N : Type) : Type :=
| ArgNode (n : N)
| ArgValue (v : pyvalue)
| ArgUnit (u : enums.Unit)
| ArgDtype (d : dt.DataType)
| ArgStr (s : string)
| ArgNone.
Arguments ArgNode {N} n.
Arguments ArgValue {N} v.
Arguments ArgUnit {N} u.
Arguments ArgDtype {N} d.
Arguments ArgStr {N} s.
Arguments ArgNone {N}.

Inductive Node : Type :=
| mkNode (kind : string) (args : list (Arg Node)) (output_dtype : dt.DataType).

(** [type(op).__name__] *)
Definition kind (op : Node) : string :=
  match op with mkNode k _ _ => k end.

Definition args (op : Node) : list (Arg Node) :=
  match op with mkNode _ a _ => a end.

Definition output_dtype (op : Node) : dt.DataType :=
  match op with mkNode _ _ d => d end.

(** [ops.Literal(value, dtype)] *)
Definition Literal (value : pyvalue) (dtype : dt.DataType) : Node :=
  mkNode "Literal" [ArgValue value; ArgDtype dtype] dtype.

(** [ops.ArrayIndex(arg, index)]: the element type of the array, nullable *)
Definition ArrayIndex (arg index : Node) (dtype : dt.DataType) : Node :=
  mkNode "ArrayIndex" [ArgNode arg; ArgNode index] dtype.

(** [isinstance(op, ops.Literal)] *)
Definition is_Literal (op : Node) : bool := String.eqb (kind op) "Literal".

(** [op.value] of a literal *)
Definition value (op : Node) : result pyvalue :=
  match args op with
  | ArgValue v :: _ => Ok v
  | _ => Raise (AttributeError "value")
  end.

(** A node-valued attribute at position [i] of the signature: [op.arg] is
    the first argument, [op.index] of an [ArrayIndex] the second. *)
Definition node_at (i : nat) (attr : string) (op : Node) : result Node :=
  match nth_error (args op) i with
  | Some (ArgNode n) => Ok n
  | _ => Raise (AttributeError attr)
  end.

Definition arg (op : Node) : result Node := node_at 0 "arg" op.
Definition index (op : Node) : result Node := node_at 1 "index" op.

(** The nodes that are direct arguments of [op]. *)
Definition children (op : Node) : list Node :=
  omap (fun a => match a with ArgNode n => Some n | _ => None end) (args op).

(** [op] is [root] or occurs below it. *)
Inductive occurs_in (op : Node) : Node -> Prop :=
| occurs_here : occurs_in op op
| occurs_below : forall parent child,
    In child (children parent) -> occurs_in op child -> occurs_in op parent.

(** A translator producing values of [T]: SQL text for the string
    compilers, SQLAlchemy constructs for the SQLAlchemy ones. *)
Record Translator (T : Type) : Type := mkTranslator {
  translate : Node -> result T
}.
Arguments mkTranslator {T} translate.
Arguments translate {T} t op.

Definition ExprTranslator : Type := Translator string.

(** [translator.translate(x)] on an argument: only nodes can be translated. *)
Definition translate_arg {T : Type} (t : Translator T) (a : Arg Node) : result T :=
  match a with
  | ArgNode n => translate t n
  | _ => Raise (AssertionError "not a Node")
  end.

(** A translation rule, as stored in an operation registry. *)
Definition rule (T : Type) : Type := Translator T -> Node -> result T.

(** [d.update(entries)] and a dict display [{**d, k1: v1, ...}]: the entries
    are stored in order, a later one replacing an earlier one. *)
Definition dict_update {V : Type} (d : gmap string V) (entries : list (string * V))
  : gmap string V :=
  foldl (fun m kv => <[fst kv := snd kv]> m) d entries.

(** A unit-valued attribute at position [i] ([op.unit]) and an optional
    node-valued one ([None] when it was not given). *)
Definition unit_at (i : nat) (attr : string) (op : Node) : result enums.Unit :=
  match nth_error (args op) i with
  | Some (ArgUnit u) => Ok u
  | _ => Raise (AttributeError attr)
  end.

Definition optional_node_at (i : nat) (attr : string) (op : Node)
  : result (option Node) :=
  match nth_error (args op) i with
  | Some (ArgNode n) => Ok (Some n)
  | Some ArgNone => Ok None
  | _ => Raise (AttributeError attr)
  end.

End ops.

(** ** The generic literal formatter
       ([ibis/backends/base/sql/registry/literal.py]) *)

Module literal.

Import ops.

Section WithExternals.
Context `{Externals}.

(** [_set_literal_format] is written against expressions ([expr.type()],
    [expr.op()]) while [literal] hands it the operation node, which has no
    [type] attribute. *)
Definition _set_literal_format (translator : ExprTranslator) (expr : Node)
  : result string :=
  Raise (AttributeError "type").

Definition _boolean_literal_format (translator : ExprTranslator) (op : Node)
  : result string :=
  v <- value op ;;
  Ok (if builtins.truthy v then "TRUE" else "FALSE").

(** [s.replace("'", "\\'")] *)
Fixpoint escape_single_quotes (s : string) : string :=
  match s with
  | EmptyString => EmptyString
  | String c s' =>
      if Ascii.eqb c squote
      then String backslash (String squote (escape_single_quotes s'))
      else String c (escape_single_quotes s')
  end.

(** Reading an escaped text back: a backslash followed by a single quote
    stands for the quote.  (Not in the sources: the reading a SQL parser
    gives to the escape, used to compare texts.) *)
Fixpoint unescape_single_quotes (s : string) : string :=
  match s with
  | EmptyString => EmptyString
  | String c s' =>
      if Ascii.eqb c backslash then
        match s' with
        | String c' s'' =>
            if Ascii.eqb c' squote then String squote (unescape_single_quotes s'')
            else String c (unescape_single_quotes s')
        | EmptyString => String c EmptyString
        end
      else String c (unescape_single_quotes s')
  end.

Definition _string_literal_format (translator : ExprTranslator) (op : Node)
  : result string :=
  v <- value op ;;
  match v with
  | VStr s => Ok ("'" +:+ escape_single_quotes s +:+ "'")
  | _ => Raise (AttributeError "replace")
  end.

Definition _number_literal_format (translator : ExprTranslator) (op : Node)
  : result string :=
  v <- value op ;;
  finite <- builtins.math_isfinite v ;;
  if finite then Ok (builtins.repr v)
  else
    nan <- builtins.math_isnan v ;;
    formatted_val <-
      (if nan then Ok "NaN"
       else
         inf <- builtins.math_isinf v ;;
         if inf then
           positive <- builtins.gt0 v ;;
           if positive then Ok "Infinity" else Ok "-Infinity"
         else Raise (UnboundLocalError "formatted_val")) ;;
    Ok ("CAST(" +:+ repr_str formatted_val +:+ " AS DOUBLE)").

(** [op.output_dtype.resolution]: the singular name of the interval unit *)
Definition resolution (d : dt.DataType) : result string :=
  match d with
  | dt.Interval unit _ _ => Ok (enums.singular unit)
  | _ => Raise (AttributeError "resolution")
  end.

Definition _interval_literal_format (translator : ExprTranslator) (op : Node)
  : result string :=
  v <- value op ;;
  r <- resolution (output_dtype op) ;;
  Ok ("INTERVAL " +:+ builtins.str v +:+ " " +:+ enums.upper r).

Definition _date_literal_format (translator : ExprTranslator) (op : Node)
  : result string :=
  v <- value op ;;
  let v := if builtins.is_date_object v then VStr (strftime_ymd v) else v in
  Ok (builtins.repr v).

Definition _timestamp_literal_format (translator : ExprTranslator) (op : Node)
  : result string :=
  v <- value op ;;
  let v := if builtins.is_datetime_object v then VStr (isoformat v) else v in
  Ok (builtins.repr v).

Definition literal_formatters : gmap string (rule string) :=
  list_to_map
    [("boolean", _boolean_literal_format);
     ("number", _number_literal_format);
     ("string", _string_literal_format);
     ("interval", _interval_literal_format);
     ("timestamp", _timestamp_literal_format);
     ("date", _date_literal_format);
     ("set", _set_literal_format)].

(** [literal(translator, op)]: return the expression as its literal value. *)
Definition literal (translator : ExprTranslator) (op : Node) : result string :=
  let dtype := output_dtype op in
  v <- value op ;;
  match v with
  | VNone => Ok "NULL"
  | _ =>
      typeclass <-
        (if dt.is_boolean dtype then Ok "boolean"
         else if dt.is_string dtype then Ok "string"
         else if dt.is_date dtype then Ok "date"
         else if dt.is_numeric dtype then Ok "number"
         else if dt.is_timestamp dtype then Ok "timestamp"
         else if dt.is_interval dtype then Ok "interval"
         else if dt.is_set dtype then Ok "set"
         else Raise (NotImplementedError ("Unsupported type: " +:+ dtype_repr dtype))) ;;
      match literal_formatters !! typeclass with
      | Some formatter => formatter translator op
      | None => Raise (KeyError typeclass)
      end
  end.

Definition null_literal (translator : ExprTranslator) (expr : Node) : result string :=
  Ok "NULL".

End WithExternals.

End literal.

(** ** The BigQuery registry ([ibis/backends/bigquery/registry.py]) *)

Module bigquery.

Import ops.

Section WithExternals.
Context `{Externals}.

(** The registry of the generic SQL backend
    ([ibis.backends.base.sql.registry.operation_registry]) and the rules of
    this module that are built from helpers of that package ([fixed_arity],
    [unary], [reduction]) or are not needed below ([rule_of_source k] is the
    rule the source stores under the key [k]). *)
Variable operation_registry : gmap string (rule string).
Variable rule_of_source : string -> rule string.

Definition _array_index (translator : ExprTranslator) (op : Node) : result string :=
  arg <- (a <- ops.arg op ;; translate translator a) ;;
  index <- (i <- ops.index op ;; translate translator i) ;;
  Ok (arg +:+ "[SAFE_OFFSET(" +:+ index +:+ ")]").

Definition _array_literal_format (op : Node) : result string :=
  v <- value op ;;
  items <- builtins.iterate v ;;
  Ok (builtins.str (VList items)).

(** [value[name]] on the value of a struct literal *)
Definition getitem (v : pyvalue) (key : string) : result pyvalue :=
  match v with
  | VDict items =>
      match List.find (fun kv => String.eqb (fst kv) key) items with
      | Some kv => Ok (snd kv)
      | None => Raise (KeyError key)
      end
  | _ => Raise (TypeError ("'" +:+ class_name_of v +:+ "' object is not subscriptable"))
  end.

(** [dtype.names] and [dtype.types] of a struct, zipped *)
Definition struct_fields (d : dt.DataType) : list (string * dt.DataType) :=
  match d with dt.Struct fields _ => fields | _ => [] end.

Definition _literal (translator : ExprTranslator) (op : Node) : result string :=
  let dtype := output_dtype op in
  value <- value op ;;
  match value with
  | VNone => Ok "NULL"
  | _ =>
      if dt.is_decimal dtype then
        match value with
        | VDecimal (DecNaN _) => Ok "CAST('NaN' AS FLOAT64)"
        | VDecimal (DecInf signed) =>
            let prefix := str_mul "-" signed in
            Ok ("CAST('" +:+ prefix +:+ "inf' AS FLOAT64)")
        | VDecimal (DecFinite _ _ _) =>
            Ok (ibis_type_to_bigquery_type dtype +:+ " '" +:+ builtins.str value +:+ "'")
        | _ => Raise (AttributeError "is_nan")
        end
      else if dt.is_uuid dtype then
        translate translator (Literal (VStr (builtins.str value)) dt.string)
      else
        nonfinite <-
          (if dt.isinstance dtype dt.C_Numeric then
             finite <- builtins.np_isfinite value ;; Ok (negb finite)
           else Ok false) ;;
        if nonfinite then
          Ok ("CAST(" +:+ repr_str (builtins.str value) +:+ " AS FLOAT64)")
        else
          let fallback :=
            match literal.literal translator op with
            | Raise (NotImplementedError _) =>
                if dt.isinstance dtype dt.C_Array then _array_literal_format op
                else Raise (NotImplementedError ("Unsupported type: " +:+ dtype_repr dtype))
            | r => r
            end in
          if is_Literal op then
            if dt.isinstance dtype dt.C_Date then
              let raw_value :=
                if builtins.is_datetime_object value then datetime_date value else value in
              Ok ("DATE '" +:+ builtins.str raw_value +:+ "'")
            else if dt.isinstance dtype dt.C_Timestamp then
              Ok ("TIMESTAMP '" +:+ builtins.str value +:+ "'")
            else if dt.isinstance dtype dt.C_Time then
              Ok ("TIME '" +:+ builtins.str value +:+ "'")
            else if dt.isinstance dtype dt.C_Binary then
              match value with
              | VBytes b => Ok ("FROM_BASE64('" +:+ b64encode_utf8 b +:+ "')")
              | _ => Raise (TypeError "a bytes-like object is required")
              end
            else if dt.is_struct dtype then
              cols <- sequence
                        (List.map
                           (fun field =>
                              item <- getitem value (fst field) ;;
                              text <- translate translator (Literal item (snd field)) ;;
                              Ok (text +:+ " AS " +:+ fst field))
                           (struct_fields dtype)) ;;
              Ok ("STRUCT(" +:+ join ", " cols +:+ ")")
            else fallback
          else fallback
  end.

(** [bigquery_cast], a [multipledispatch] function of the compiled text, the
    source type and the target type: the registered signature closest to the
    classes of the arguments is taken.  The three special signatures exclude
    one another, and each is closer than [(str, DataType, DataType)]. *)
Definition bigquery_cast (compiled_arg : string) (from_ to : dt.DataType)
  : result string :=
  if dt.isinstance from_ dt.C_Timestamp && dt.isinstance to dt.C_Integer then
    Ok ("UNIX_MICROS(" +:+ compiled_arg +:+ ")")
  else if dt.isinstance from_ dt.C_Integer && dt.isinstance to dt.C_Timestamp then
    Ok ("TIMESTAMP_SECONDS(" +:+ compiled_arg +:+ ")")
  else if dt.isinstance from_ dt.C_Interval && dt.isinstance to dt.C_Integer then
    r <- literal.resolution from_ ;;
    Ok ("EXTRACT(" +:+ enums.upper r +:+ " from " +:+ compiled_arg +:+ ")")
  else
    let sql_type := ibis_type_to_bigquery_type to in
    Ok ("CAST(" +:+ compiled_arg +:+ " AS " +:+ sql_type +:+ ")").

(** The signature [(str, DataType)]: [bigquery_cast(compiled_arg, to, to)] *)
Definition bigquery_cast_generate_simple (compiled_arg : string) (to : dt.DataType)
  : result string :=
  bigquery_cast compiled_arg to to.

Definition _cast (translator : ExprTranslator) (op : Node) : result string :=
  match args op with
  | [ArgNode arg; ArgDtype target_type] =>
      arg_formatted <- translate translator arg ;;
      let input_dtype := output_dtype arg in
      bigquery_cast arg_formatted input_dtype target_type
  | [_; _] => Raise (TypeError "arguments of a cast: a node and a data type")
  | _ => Raise (ValueError "wrong number of values to unpack")
  end.

(** Interprets an integer as a timestamp. *)
Definition integer_to_timestamp (translator : ExprTranslator) (op : Node)
  : result string :=
  arg <- (a <- ops.arg op ;; translate translator a) ;;
  u <- unit_at 1 "unit" op ;;
  let unit := enums.short u in
  if String.eqb unit "s" then Ok ("TIMESTAMP_SECONDS(" +:+ arg +:+ ")")
  else if String.eqb unit "ms" then Ok ("TIMESTAMP_MILLIS(" +:+ arg +:+ ")")
  else if String.eqb unit "us" then Ok ("TIMESTAMP_MICROS(" +:+ arg +:+ ")")
  else if String.eqb unit "ns" then
    Ok ("TIMESTAMP_MICROS(CAST(ROUND(" +:+ arg +:+ " / 1000) AS INT64))")
  else Raise (NotImplementedError ("cannot cast unit " +:+ enums.str u)).

Definition _string_find (translator : ExprTranslator) (op : Node) : result string :=
  match args op with
  | [haystack; needle; start; end_] =>
      match start with
      | ArgNone =>
          match end_ with
          | ArgNone =>
              h <- translate_arg translator haystack ;;
              n <- translate_arg translator needle ;;
              Ok ("STRPOS(" +:+ h +:+ ", " +:+ n +:+ ") - 1")
          | _ => Raise (NotImplementedError "end not implemented for string find")
          end
      | _ => Raise (NotImplementedError "start not implemented for string find")
      end
  | _ => Raise (ValueError "wrong number of values to unpack")
  end.

(** [ops.Substring(arg, start, length)], [length] being optional.
    [getattr(length, "value", None)] is the value of a literal length and
    [None] for anything else. *)
Definition _string_substring (translator : ExprTranslator) (op : Node)
  : result string :=
  length <- optional_node_at 2 "length" op ;;
  let literal_length :=
    match length with
    | Some l => match value l with Ok v => v | Raise _ => VNone end
    | None => VNone
    end in
  negative <- match literal_length with
              | VNone => Ok false
              | v => builtins.lt0 v
              end ;;
  if negative then Raise (ValueError "Length parameter must be a non-negative value.")
  else
    arg <- (a <- ops.arg op ;; translate translator a) ;;
    start <- (s <- node_at 1 "start" op ;; translate translator s) ;;
    let arg_length := "LENGTH(" +:+ arg +:+ ")" in
    suffix <- match length with
              | Some l => text <- translate translator l ;; Ok (", " +:+ text)
              | None => Ok EmptyString
              end ;;
    let if_pos := "SUBSTR(" +:+ arg +:+ ", " +:+ start +:+ " + 1" +:+ suffix +:+ ")" in
    let if_neg :=
      "SUBSTR(" +:+ arg +:+ ", " +:+ arg_length +:+ " + " +:+ start +:+ " + 1"
      +:+ suffix +:+ ")" in
    Ok ("IF(" +:+ start +:+ " >= 0, " +:+ if_pos +:+ ", " +:+ if_neg +:+ ")").

(** [_truncate(kind, units)] returns the rule [truncator]. *)
Definition _truncate (kind : string) (units : list enums.Unit) : rule string :=
  fun translator op =>
    match args op with
    | [ArgNode arg; ArgUnit unit] =>
        trans_arg <- translate translator arg ;;
        if negb (bool_decide (unit ∈ units)) then
          Raise (UnsupportedOperationError
                   ("BigQuery does not support truncating " +:+ dt.str (output_dtype arg)
                    +:+ " values to unit " +:+ enums.repr unit))
        else
          let unit :=
            if String.eqb (enums.name unit) "WEEK" then "WEEK(MONDAY)"
            else enums.name unit in
          Ok (kind +:+ "_TRUNC(" +:+ trans_arg +:+ ", " +:+ unit +:+ ")")
    | [_; _] => Raise (TypeError "arguments of a truncation: a node and a unit")
    | _ => Raise (ValueError "wrong number of values to unpack")
    end.

(** [offset.output_dtype.unit] *)
Definition interval_unit (d : dt.DataType) : result enums.Unit :=
  match d with
  | dt.Interval unit _ _ => Ok unit
  | _ => Raise (AttributeError "unit")
  end.

(** [_timestamp_op(func, units)] returns the rule [_formatter]. *)
Definition _timestamp_op (func : string) (units : list enums.Unit) : rule string :=
  fun translator op =>
    match args op with
    | [ArgNode arg; ArgNode offset] =>
        unit <- interval_unit (output_dtype offset) ;;
        if negb (bool_decide (unit ∈ units)) then
          Raise (UnsupportedOperationError
                   ("BigQuery does not allow binary operation "
                    +:+ func +:+ " with INTERVAL offset " +:+ enums.str unit))
        else
          formatted_arg <- translate translator arg ;;
          formatted_offset <- translate translator offset ;;
          Ok (func +:+ "(" +:+ formatted_arg +:+ ", " +:+ formatted_offset +:+ ")")
    | [_; _] => Raise (AttributeError "output_dtype")
    | _ => Raise (ValueError "wrong number of values to unpack")
    end.

Definition _neg_idx_to_pos (array idx : string) : string :=
  "IF(" +:+ idx +:+ " < 0, ARRAY_LENGTH(" +:+ array +:+ ") + " +:+ idx +:+ ", " +:+ idx +:+ ")".

(** [ops.ArraySlice(arg, start, stop)], [stop] being optional *)
Definition _array_slice (t : ExprTranslator) (op : Node) : result string :=
  arg <- (a <- ops.arg op ;; translate t a) ;;
  start <- (s <- node_at 1 "start" op ;; translate t s) ;;
  let cond := ["index >= " +:+ _neg_idx_to_pos arg start] in
  cond <-
    match nth_error (args op) 2 with
    | Some (ArgNode stop) =>
        stop_text <- translate t stop ;;
        Ok (cond ++ ["index < " +:+ _neg_idx_to_pos arg stop_text])%list
    | Some ArgNone => Ok cond
    | _ => Raise (AttributeError "stop")
    end ;;
  Ok ("ARRAY(SELECT el FROM UNNEST(" +:+ arg +:+ ") AS el WITH OFFSET index WHERE "
      +:+ join " AND " cond +:+ ")").

(** BigQuery doesn't support nanosecond intervals.  The frozensets are
    kept as duplicate-free lists; only membership is ever asked of them. *)
Definition _DATE_UNITS : list enums.Unit :=
  List.map enums.OfDate enums.DateUnit.all.
Definition _TIME_UNITS : list enums.Unit :=
  list_difference (List.map enums.OfTime enums.TimeUnit.all)
                  [enums.OfTime enums.TimeUnit.NANOSECOND].
Definition _INTERVAL_UNITS : list enums.Unit :=
  list_difference (List.map enums.OfInterval enums.IntervalUnit.all)
                  [enums.OfInterval enums.IntervalUnit.NANOSECOND].
Definition _INTERVAL_DATE_UNITS : list enums.Unit :=
  list_difference _INTERVAL_UNITS
    [enums.OfInterval enums.IntervalUnit.HOUR;
     enums.OfInterval enums.IntervalUnit.MINUTE;
     enums.OfInterval enums.IntervalUnit.SECOND;
     enums.OfInterval enums.IntervalUnit.MILLISECOND;
     enums.OfInterval enums.IntervalUnit.MICROSECOND].
Definition _INTERVAL_TIME_UNITS : list enums.Unit :=
  list_difference _INTERVAL_UNITS _INTERVAL_DATE_UNITS.

(** The registry before the denylist is applied: the generic registry
    overlaid with the rules of this module. *)
Definition OPERATION_REGISTRY_overlaid : gmap string (rule string) :=
  dict_update operation_registry
    [
     ("Literal", _literal);
     ("Any", rule_of_source "Any");
     ("All", rule_of_source "All");
     ("IfNull", rule_of_source "IfNull");
     ("NullIf", rule_of_source "NullIf");
     ("NullIfZero", rule_of_source "NullIfZero");
     ("ZeroIfNull", rule_of_source "ZeroIfNull");
     ("ApproxMedian", rule_of_source "ApproxMedian");
     ("Covariance", rule_of_source "Covariance");
     ("Correlation", rule_of_source "Correlation");
     ("Divide", rule_of_source "Divide");
     ("Floor", rule_of_source "Floor");
     ("Modulus", rule_of_source "Modulus");
     ("Sign", rule_of_source "Sign");
     ("BitwiseNot", rule_of_source "BitwiseNot");
     ("BitwiseXor", rule_of_source "BitwiseXor");
     ("BitwiseOr", rule_of_source "BitwiseOr");
     ("BitwiseAnd", rule_of_source "BitwiseAnd");
     ("BitwiseLeftShift", rule_of_source "BitwiseLeftShift");
     ("BitwiseRightShift", rule_of_source "BitwiseRightShift");
     ("Date", rule_of_source "Date");
     ("DateFromYMD", rule_of_source "DateFromYMD");
     ("DateAdd", _timestamp_op "DATE_ADD" _INTERVAL_DATE_UNITS);
     ("DateSub", _timestamp_op "DATE_SUB" _INTERVAL_DATE_UNITS);
     ("DateTruncate", _truncate "DATE" (_DATE_UNITS ++ _INTERVAL_DATE_UNITS));
     ("DayOfWeekIndex", rule_of_source "DayOfWeekIndex");
     ("DayOfWeekName", rule_of_source "DayOfWeekName");
     ("ExtractEpochSeconds", rule_of_source "ExtractEpochSeconds");
     ("ExtractYear", rule_of_source "ExtractYear");
     ("ExtractQuarter", rule_of_source "ExtractQuarter");
     ("ExtractMonth", rule_of_source "ExtractMonth");
     ("ExtractWeekOfYear", rule_of_source "ExtractWeekOfYear");
     ("ExtractDay", rule_of_source "ExtractDay");
     ("ExtractDayOfYear", rule_of_source "ExtractDayOfYear");
     ("ExtractHour", rule_of_source "ExtractHour");
     ("ExtractMinute", rule_of_source "ExtractMinute");
     ("ExtractSecond", rule_of_source "ExtractSecond");
     ("ExtractMillisecond", rule_of_source "ExtractMillisecond");
     ("Strftime", rule_of_source "Strftime");
     ("StringToTimestamp", rule_of_source "StringToTimestamp");
     ("Time", rule_of_source "Time");
     ("TimeFromHMS", rule_of_source "TimeFromHMS");
     ("TimeTruncate", _truncate "TIME" (_TIME_UNITS ++ _INTERVAL_TIME_UNITS));
     ("TimestampAdd", _timestamp_op "TIMESTAMP_ADD" _INTERVAL_TIME_UNITS);
     ("TimestampFromUNIX", rule_of_source "TimestampFromUNIX");
     ("TimestampFromYMDHMS", rule_of_source "TimestampFromYMDHMS");
     ("TimestampNow", rule_of_source "TimestampNow");
     ("TimestampSub", _timestamp_op "TIMESTAMP_SUB" _INTERVAL_TIME_UNITS);
     ("TimestampTruncate", _truncate "TIMESTAMP"
        (_DATE_UNITS ++ _TIME_UNITS ++ _INTERVAL_DATE_UNITS ++ _INTERVAL_TIME_UNITS));
     ("IntervalMultiply", rule_of_source "IntervalMultiply");
     ("Hash", rule_of_source "Hash");
     ("StringReplace", rule_of_source "StringReplace");
     ("StringSplit", rule_of_source "StringSplit");
     ("StringConcat", rule_of_source "StringConcat");
     ("StringJoin", rule_of_source "StringJoin");
     ("StringAscii", rule_of_source "StringAscii");
     ("StringFind", rule_of_source "StringFind");
     ("Substring", rule_of_source "Substring");
     ("StrRight", rule_of_source "StrRight");
     ("Capitalize", rule_of_source "Capitalize");
     ("Translate", rule_of_source "Translate");
     ("Repeat", rule_of_source "Repeat");
     ("RegexSearch", rule_of_source "RegexSearch");
     ("RegexExtract", rule_of_source "RegexExtract");
     ("RegexReplace", rule_of_source "RegexReplace");
     ("GroupConcat", rule_of_source "GroupConcat");
     ("Cast", rule_of_source "Cast");
     ("StructField", rule_of_source "StructField");
     ("StructColumn", rule_of_source "StructColumn");
     ("ArrayCollect", rule_of_source "ArrayCollect");
     ("ArrayConcat", rule_of_source "ArrayConcat");
     ("ArrayColumn", rule_of_source "ArrayColumn");
     ("ArrayIndex", _array_index);
     ("ArrayLength", rule_of_source "ArrayLength");
     ("ArrayRepeat", rule_of_source "ArrayRepeat");
     ("ArraySlice", _array_slice);
     ("Log", rule_of_source "Log");
     ("Log2", rule_of_source "Log2");
     ("Arbitrary", rule_of_source "Arbitrary");
     ("GeoUnaryUnion", rule_of_source "GeoUnaryUnion");
     ("GeoArea", rule_of_source "GeoArea");
     ("GeoAsBinary", rule_of_source "GeoAsBinary");
     ("GeoAsText", rule_of_source "GeoAsText");
     ("GeoAzimuth", rule_of_source "GeoAzimuth");
     ("GeoBuffer", rule_of_source "GeoBuffer");
     ("GeoCentroid", rule_of_source "GeoCentroid");
     ("GeoContains", rule_of_source "GeoContains");
     ("GeoCovers", rule_of_source "GeoCovers");
     ("GeoCoveredBy", rule_of_source "GeoCoveredBy");
     ("GeoDWithin", rule_of_source "GeoDWithin");
     ("GeoDifference", rule_of_source "GeoDifference");
     ("GeoDisjoint", rule_of_source "GeoDisjoint");
     ("GeoDistance", rule_of_source "GeoDistance");
     ("GeoEndPoint", rule_of_source "GeoEndPoint");
     ("GeoEquals", rule_of_source "GeoEquals");
     ("GeoGeometryType", rule_of_source "GeoGeometryType");
     ("GeoIntersection", rule_of_source "GeoIntersection");
     ("GeoIntersects", rule_of_source "GeoIntersects");
     ("GeoLength", rule_of_source "GeoLength");
     ("GeoMaxDistance", rule_of_source "GeoMaxDistance");
     ("GeoNPoints", rule_of_source "GeoNPoints");
     ("GeoPerimeter", rule_of_source "GeoPerimeter");
     ("GeoPoint", rule_of_source "GeoPoint");
     ("GeoPointN", rule_of_source "GeoPointN");
     ("GeoSimplify", rule_of_source "GeoSimplify");
     ("GeoStartPoint", rule_of_source "GeoStartPoint");
     ("GeoTouches", rule_of_source "GeoTouches");
     ("GeoUnion", rule_of_source "GeoUnion");
     ("GeoWithin", rule_of_source "GeoWithin");
     ("GeoX", rule_of_source "GeoX");
     ("GeoXMax", rule_of_source "GeoXMax");
     ("GeoXMin", rule_of_source "GeoXMin");
     ("GeoY", rule_of_source "GeoY");
     ("GeoYMax", rule_of_source "GeoYMax");
     ("GeoYMin", rule_of_source "GeoYMin");
     ("BitAnd", rule_of_source "BitAnd");
     ("BitOr", rule_of_source "BitOr");
     ("BitXor", rule_of_source "BitXor");
     ("ApproxCountDistinct", rule_of_source "ApproxCountDistinct");
     ("ApproxMedian", rule_of_source "ApproxMedian");
     ("IdenticalTo", rule_of_source "IdenticalTo");
     ("FloorDivide", rule_of_source "FloorDivide");
     ("IsNan", rule_of_source "IsNan");
     ("IsInf", rule_of_source "IsInf");
     ("ArgMin", rule_of_source "ArgMin");
     ("ArgMax", rule_of_source "ArgMax");
     ("Pi", rule_of_source "Pi");
     ("E", rule_of_source "E");
     ("RandomScalar", rule_of_source "RandomScalar");
     ("NthValue", rule_of_source "NthValue");
     ("JSONGetItem", rule_of_source "JSONGetItem");
     ("ArrayStringJoin", rule_of_source "ArrayStringJoin");
     ("StartsWith", rule_of_source "StartsWith");
     ("EndsWith", rule_of_source "EndsWith")
    ].

Definition _invalid_operations : gset string :=
  list_to_set
    ["FindInSet"; "DateDiff"; "TimestampDiff";
     "ExtractAuthority"; "ExtractFile"; "ExtractFragment"; "ExtractHost";
     "ExtractPath"; "ExtractProtocol"; "ExtractQuery"; "ExtractUserInfo"].

Definition OPERATION_REGISTRY : gmap string (rule string) :=
  filter (fun kv => fst kv ∉ _invalid_operations) OPERATION_REGISTRY_overlaid.

End WithExternals.

End bigquery.

(** ** SQLAlchemy constructs

    The SQLAlchemy backends build expression objects instead of text.  Only
    the constructors the DuckDB rules use are listed: [sa.null()],
    [sa.literal], [sa.literal_column], [sa.text], [sa.cast], a call through
    [sa.func], the operators Python overloads on column elements, and the
    [struct_pack] function class of the DuckDB registry. *)

Module sa.

Inductive expr : Type :=
| null
| literal (value : pyvalue)
| literal_column (text : string)
| text (t : string)
| cast (e : expr) (type_ : string)
| func (name : string) (args : list expr)
| binary (operator : string) (left right : expr)
| unary (operator : string) (element : expr)
| struct_pack (values : list (string * expr)) (type_ : string).

(** The integer an index expression denotes, for an array of the given
    length: literals, [array_length], [greatest], [if], [<], [+], unary
    minus.  Truth values are 1 and 0. *)
Fixpoint eval (array_length : Z) (e : expr) : option Z :=
  match e with
  | literal (VInt z) => Some z
  | func "array_length" [_] => Some array_length
  | func "greatest" [a; b] =>
      x ← eval array_length a; y ← eval array_length b; Some (Z.max x y)
  | func "if" [c; a; b] =>
      x ← eval array_length c;
      if x =? 0 then eval array_length b else eval array_length a
  | binary "<" a b =>
      x ← eval array_length a; y ← eval array_length b; Some (Z.b2z (x <? y))
  | binary "+" a b =>
      x ← eval array_length a; y ← eval array_length b; Some (x + y)
  | unary "-" a => x ← eval array_length a; Some (- x)
  | _ => None
  end.

End sa.

(** ** The DuckDB registry ([ibis/backends/duckdb/registry.py]) *)

Module duckdb.

Import ops.

Section WithExternals.
Context `{Externals}.

(** What the module imports from the PostgreSQL and the generic SQLAlchemy
    registries: the PostgreSQL [operation_registry], the table of
    [geospatial_functions], the rule builders [_array_index] and
    [_array_slice], and (as [rule_of_source k]) the rules stored under the
    keys [k] that are built from [fixed_arity], [unary], [reduction] or are
    not needed below. *)
Variable postgres_operation_registry : gmap string (rule sa.expr).
Variable geospatial_functions : gmap string (rule sa.expr).
Variable _array_index :
  (sa.expr -> sa.expr -> sa.expr) -> string -> rule sa.expr.
Variable _array_slice :
  (sa.expr -> sa.expr -> sa.expr) -> string -> string -> rule sa.expr.
Variable rule_of_source : string -> rule sa.expr.

(** The first [operation_registry] of the module: the PostgreSQL rules
    without the geospatial ones. *)
Definition operation_registry_base : gmap string (rule sa.expr) :=
  filter (fun kv => fst kv ∉ dom geospatial_functions) postgres_operation_registry.

Definition _timestamp_from_unix (t : Translator sa.expr) (op : Node) : result sa.expr :=
  match args op with
  | [ArgNode arg; ArgUnit unit] =>
      arg <- translate t arg ;;
      if String.eqb (enums.short unit) "ms" then Ok (sa.func "epoch_ms" [arg])
      else if String.eqb (enums.short unit) "s" then Ok (sa.func "to_timestamp" [arg])
      else Raise (UnsupportedOperationError (enums.repr unit +:+ " unit is not supported!"))
  | [_; _] => Raise (TypeError "arguments of TimestampFromUNIX: a node and a unit")
  | _ => Raise (ValueError "wrong number of values to unpack")
  end.

(** [value.items()] *)
Definition items (v : pyvalue) : result (list (string * pyvalue)) :=
  match v with
  | VDict l => Ok l
  | _ => Raise (AttributeError "items")
  end.

(** [dtype[key]] on a struct type *)
Definition struct_getitem (d : dt.DataType) (key : string) : result dt.DataType :=
  match List.find (fun kv => String.eqb (fst kv) key) (bigquery.struct_fields d) with
  | Some kv => Ok (snd kv)
  | None => Raise (KeyError key)
  end.

Definition _literal (t : Translator sa.expr) (op : Node) : result sa.expr :=
  let dtype := output_dtype op in
  value <- value op ;;
  match value with
  | VNone => Ok sa.null
  | _ =>
      let sqla_type := get_sqla_type dtype in
      if dt.is_interval dtype then
        r <- literal.resolution dtype ;;
        Ok (sa.literal_column ("INTERVAL '" +:+ builtins.str value +:+ " " +:+ r +:+ "'"))
      else if dt.is_set dtype || dt.is_array dtype then
        values <- builtins.iterate value ;;
        Ok (sa.cast (sa.func "list_value" (List.map sa.literal values)) sqla_type)
      else if dt.is_floating dtype then
        finite <- builtins.np_isfinite value ;;
        value <-
          (if negb finite then
             nan <- builtins.np_isnan value ;;
             if nan then Ok (VStr "NaN")
             else
               inf <- builtins.np_isinf value ;;
               if negb inf then
                 Raise (AssertionError "value is neither finite, nan nor infinite")
               else
                 negative <- builtins.lt0 value ;;
                 let prefix := str_mul "-" negative in
                 Ok (VStr (prefix +:+ "Inf"))
           else Ok value) ;;
        Ok (sa.cast (sa.literal value) sqla_type)
      else if dt.is_struct dtype then
        fields <- items value ;;
        values <- sequence
                    (List.map
                       (fun kv =>
                          field_type <- struct_getitem dtype (fst kv) ;;
                          e <- translate t (Literal (snd kv) field_type) ;;
                          Ok (fst kv, e))
                       fields) ;;
        Ok (sa.struct_pack values sqla_type)
      else if dt.is_string dtype then Ok (sa.literal value)
      else if dt.is_map dtype then
        fields <- items value ;;
        Ok (sa.func "map"
              [sa.func "list_value" (List.map (fun kv => sa.literal (VStr (fst kv))) fields);
               sa.func "list_value" (List.map (fun kv => sa.literal (snd kv)) fields)])
      else Ok (sa.cast (sa.literal value) sqla_type)
  end.

Definition if_ (c a b : sa.expr) : sa.expr := sa.func "if" [c; a; b].

Definition _neg_idx_to_pos (array idx : sa.expr) : sa.expr :=
  let arg_length := sa.func "array_length" [array] in
  if_ (sa.binary "<" idx (sa.literal (VInt 0)))
      (sa.binary "+" arg_length (sa.func "greatest" [idx; sa.unary "-" arg_length]))
      idx.

(** [operation_registry.update({...})] *)
Definition operation_registry_updated : gmap string (rule sa.expr) :=
  dict_update operation_registry_base
    [
     ("ArrayColumn", rule_of_source "ArrayColumn");
     ("ArrayConcat", rule_of_source "ArrayConcat");
     ("ArrayRepeat", rule_of_source "ArrayRepeat");
     ("ArrayLength", rule_of_source "ArrayLength");
     ("ArraySlice", _array_slice _neg_idx_to_pos "array_length" "list_slice");
     ("ArrayIndex", _array_index _neg_idx_to_pos "list_extract");
     ("ArrayMap", rule_of_source "ArrayMap");
     ("ArrayFilter", rule_of_source "ArrayFilter");
     ("ArrayContains", rule_of_source "ArrayContains");
     ("ArrayPosition", rule_of_source "ArrayPosition");
     ("ArrayDistinct", rule_of_source "ArrayDistinct");
     ("ArraySort", rule_of_source "ArraySort");
     ("ArrayRemove", rule_of_source "ArrayRemove");
     ("ArrayUnion", rule_of_source "ArrayUnion");
     ("DayOfWeekName", rule_of_source "DayOfWeekName");
     ("Literal", _literal);
     ("Log2", rule_of_source "Log2");
     ("Ln", rule_of_source "Ln");
     ("Log", rule_of_source "Log");
     ("IsNan", rule_of_source "IsNan");
     ("Modulus", rule_of_source "Modulus");
     ("Round", rule_of_source "Round");
     ("StructField", rule_of_source "StructField");
     ("TableColumn", rule_of_source "TableColumn");
     ("TimestampFromUNIX", _timestamp_from_unix);
     ("TimestampNow", rule_of_source "TimestampNow");
     ("RegexExtract", rule_of_source "RegexExtract");
     ("RegexReplace", rule_of_source "RegexReplace");
     ("RegexSearch", rule_of_source "RegexSearch");
     ("StringContains", rule_of_source "StringContains");
     ("ApproxMedian", rule_of_source "ApproxMedian");
     ("ApproxCountDistinct", rule_of_source "ApproxCountDistinct");
     ("Mode", rule_of_source "Mode");
     ("Strftime", rule_of_source "Strftime");
     ("Arbitrary", rule_of_source "Arbitrary");
     ("GroupConcat", rule_of_source "GroupConcat");
     ("StructColumn", rule_of_source "StructColumn");
     ("ArgMin", rule_of_source "ArgMin");
     ("ArgMax", rule_of_source "ArgMax");
     ("BitwiseXor", rule_of_source "BitwiseXor");
     ("JSONGetItem", rule_of_source "JSONGetItem");
     ("RowID", rule_of_source "RowID");
     ("StringToTimestamp", rule_of_source "StringToTimestamp");
     ("Quantile", rule_of_source "Quantile");
     ("MultiQuantile", rule_of_source "MultiQuantile");
     ("TypeOf", rule_of_source "TypeOf");
     ("IntervalAdd", rule_of_source "IntervalAdd");
     ("IntervalSubtract", rule_of_source "IntervalSubtract");
     ("Capitalize", rule_of_source "Capitalize");
     ("ArrayStringJoin", rule_of_source "ArrayStringJoin");
     ("SearchedCase", rule_of_source "SearchedCase");
     ("SimpleCase", rule_of_source "SimpleCase");
     ("StartsWith", rule_of_source "StartsWith");
     ("EndsWith", rule_of_source "EndsWith");
     ("Argument", rule_of_source "Argument");
     ("Unnest", rule_of_source "Unnest");
     ("MapGet", rule_of_source "MapGet");
     ("Map", rule_of_source "Map");
     ("MapContains", rule_of_source "MapContains");
     ("MapLength", rule_of_source "MapLength");
     ("MapKeys", rule_of_source "MapKeys");
     ("MapValues", rule_of_source "MapValues");
     ("MapMerge", rule_of_source "MapMerge")
    ].

Definition _invalid_operations : gset string :=
  list_to_set
    ["CumulativeAll"; "CumulativeAny"; "CumulativeOp"; "NTile";
     "Translate";
     "ToJSONMap"; "ToJSONArray"].

Definition operation_registry : gmap string (rule sa.expr) :=
  filter (fun kv => fst kv ∉ _invalid_operations) operation_registry_updated.

End WithExternals.

End duckdb.

(** ** The translator's walk *)

Module compiler.

Import ops.

(** Modelled from the spec: the translator ([ExprTranslator.translate] and
    the [compile] entry point of [ibis/backends/base/sql/compiler], which are
    not in the sources at hand).  Section 4.4 of the specification: "The
    translator performs a single bottom-up (post-order) walk: children are
    translated first and their text substituted into the parent's rule", and
    "Rule resolution order: exact node-kind match in the dialect's overlay
    registry, base/generic registry, [OperationNotDefinedError] raised with
    the dialect name and operation name"; section 7: "compilation is
    all-or-nothing per expression".  The registry handed in is the dialect's
    final, layered one.  [depth] is the room left on the interpreter's call
    stack, whose exhaustion is a [RecursionError]. *)
Fixpoint translate {T : Type} (dialect : string) (registry : gmap string (rule T))
    (depth : nat) (op : Node) : result T :=
  match depth with
  | O => Raise RecursionError
  | S depth' =>
      _ <- sequence (List.map (translate dialect registry depth') (children op)) ;;
      match registry !! kind op with
      | Some formatter =>
          formatter (mkTranslator (translate dialect registry depth')) op
      | None =>
          Raise (OperationNotDefinedError
                   (dialect +:+ ": no translation rule for " +:+ kind op))
      end
  end.

(** Modelled from the spec: [compile(expression, target_dialect) -> Text]
    (section 6), the walk started at the root of the expression. *)
Definition compile {T : Type} (dialect : string) (registry : gmap string (rule T))
    (depth : nat) (expression : Node) : result T :=
  translate dialect registry depth expression.

End compiler.

(** ** Grouped tables ([ibis/expr/types/groupby.py]) *)

Module groupby.

(** A window frame ([ops.WindowFrame], declared outside the sources), over
    expressions of type [E]: [how] is ["rows"] for a [RowsWindowFrame] and
    ["range"] for a [RangeWindowFrame]; an absent bound is unbounded. *)
Record WindowFrame (E Table : Type) : Type := mkWindowFrame {
  how : string;
  frame_table : option Table;
  start : option Z;
  end_ : option Z;
  group_by : list E;
  order_by : list E;
  max_lookback : option Z
}.
Arguments mkWindowFrame {E Table}.
Arguments how {E Table}.
Arguments frame_table {E Table}.
Arguments start {E Table}.
Arguments end_ {E Table}.
Arguments group_by {E Table}.
Arguments order_by {E Table}.
Arguments max_lookback {E Table}.

Section WithTables.

(** Table expressions, and what callers may pass where an expression is
    expected (a column name, a callable, a deferred expression, ...), are
    declared outside the sources. *)
Variable Table : Type.
Variable Raw : Type.

(** Value expressions, as far as windowing tells them apart: a column, an
    aggregate-function call, any other operation on value expressions, a
    function already given a window, a named expression, and a plain Python
    value standing where an expression is expected. *)
Inductive Expr : Type :=
| Column (name : string)
| Reduction (func : string) (args : list Expr)
| Call (func : string) (args : list Expr)
| WindowFunction (func : Expr) (frame : WindowFrame Expr Table)
| Alias (arg : Expr) (name : string)
| Scalar (v : pyvalue).

Definition Frame : Type := WindowFrame Expr Table.

(** [ops.RowsWindowFrame(table=..., group_by=..., order_by=...)]: the other
    fields keep their defaults. *)
Definition RowsWindowFrame (table : Table) (group_by order_by : list Expr) : Frame :=
  mkWindowFrame "rows" (Some table) None None group_by order_by None.

(** A grouping key as handed to [group_by]. *)
Inductive Key : Type :=
| KStr (value : string)
| KFunction (value : Table -> Expr)
| KDeferred (resolve : Table -> Expr)
| KSelector (expand : Table -> list Expr)
| KExpr (value : Expr)
| KOther (value : pyvalue).

(** [table[name]], [an.sub_immediate_parents(value.op(), table.op()).to_expr()],
    [table._ensure_expr(e)] followed by [util.promote_list], [ibis.window],
    [Concrete.copy] on a frame (with its keyword overrides, in order),
    [table.mutate] and [table.select]. *)
Variable getitem : Table -> string -> result Expr.
Variable sub_immediate_parents : Expr -> Table -> Expr.
Variable ensure_exprs : Table -> Raw -> result (list Expr).
Variable ibis_window :
  option (option Z * option Z) -> option (option Z * option Z) ->
  list Expr -> list Expr -> Frame.
Variable copy : Frame -> list (string * list Expr) -> result Frame.
Variable table_mutate : Table -> list Expr -> result Table.
Variable table_select : Table -> list Expr -> result Table.

Definition _get_group_by_key (table : Table) (value : Key) : result (list Expr) :=
  match value with
  | KStr s => e <- getitem table s ;; Ok [e]
  | KFunction f => Ok [f table]
  | KDeferred resolve => Ok [resolve table]
  | KSelector expand => Ok (expand table)
  | KExpr e => Ok [sub_immediate_parents e table]
  | KOther v => Ok [Scalar v]
  end.

Record GroupedTable : Type := mkGroupedTable {
  table : Table;
  by_ : list Expr;
  _order_by : list Expr;
  _having : list Expr;
  _window : option Frame
}.

(** [x or []] *)
Definition or_empty {A : Type} (x : option (list A)) : list A :=
  match x with Some l => l | None => [] end.

(** [GroupedTable.__init__]; [by_] is the list [util.promote_list] makes of
    the argument [by], [expressions] the keyword arguments in order. *)
Definition GroupedTable_init (table : Table) (by_ : list Key)
    (having order_by : option (list Expr)) (window : option Frame)
    (expressions : list (string * Key)) : result GroupedTable :=
  positional <- sequence (List.map (_get_group_by_key table) by_) ;;
  named <- sequence
             (List.map
                (fun kv =>
                   exprs <- _get_group_by_key table (snd kv) ;;
                   Ok (List.map (fun expr => Alias expr (fst kv)) exprs))
                expressions) ;;
  Ok (mkGroupedTable table (concat positional ++ concat named)%list
                     (or_empty order_by) (or_empty having) window).

(** [self.__class__(self.table, self.by, ...)]: the stored keys are handed
    to the initializer again, as expressions. *)
Definition rebuild (self : GroupedTable) (having order_by : list Expr)
    (window : option Frame) : result GroupedTable :=
  GroupedTable_init (table self) (List.map KExpr (by_ self))
                    (Some having) (Some order_by) window [].

(** [having(expr)] and [order_by(expr)], [expr] promoted to a list *)
Definition having (self : GroupedTable) (expr : list Expr) : result GroupedTable :=
  rebuild self (_having self ++ expr)%list (_order_by self) (_window self).

Definition order_by_ (self : GroupedTable) (expr : list Expr) : result GroupedTable :=
  rebuild self (_having self) (_order_by self ++ expr)%list (_window self).

Definition _get_window (self : GroupedTable) : result Frame :=
  match _window self with
  | None => Ok (RowsWindowFrame (table self) (by_ self) (_order_by self))
  | Some window =>
      copy window
           [("groupy_by", (group_by window ++ by_ self)%list);
            ("order_by", (order_by window ++ _order_by self)%list)]
  end.

Definition over (self : GroupedTable) (window : option Frame)
    (rows range : option (option Z * option Z)) (group_by order_by : list Expr)
  : result GroupedTable :=
  let window :=
    match window with
    | None => ibis_window rows range group_by order_by
    | Some w => w
    end in
  rebuild self (_having self) (_order_by self) (Some window).

(** Modelled from the spec: [an.windowize_function] ([ibis/expr/analysis.py]
    is not in the sources at hand).  Section 4.3 of the specification:
    "every aggregate-function call in the projected expressions that is not
    already explicitly windowed is wrapped with a default frame". *)
Fixpoint windowize_function (frame : Frame) (e : Expr) : Expr :=
  match e with
  | Reduction func args => WindowFunction (Reduction func args) frame
  | WindowFunction func explicit => WindowFunction func explicit
  | Call func args => Call func (List.map (windowize_function frame) args)
  | Alias arg name => Alias (windowize_function frame arg) name
  | Column name => Column name
  | Scalar v => Scalar v
  end.

(** [_selectables]: every positional argument is the list
    [util.promote_list] makes of it. *)
Definition _selectables (self : GroupedTable) (exprs : list (list Raw))
    (kwexprs : list (string * Raw)) : result (list Expr) :=
  let table := table self in
  default_frame <- _get_window self ;;
  positional <- sequence
                  (List.map
                     (fun e1 =>
                        es <- ensure_exprs table e1 ;;
                        Ok (List.map (windowize_function default_frame) es))
                     (concat exprs)) ;;
  named <- sequence
             (List.map
                (fun kv =>
                   es <- ensure_exprs table (snd kv) ;;
                   Ok (List.map
                         (fun e => Alias (windowize_function default_frame e) (fst kv))
                         es))
                kwexprs) ;;
  Ok (concat positional ++ concat named)%list.

Definition mutate (self : GroupedTable) (exprs : list (list Raw))
    (kwexprs : list (string * Raw)) : result Table :=
  exprs <- _selectables self exprs kwexprs ;;
  table_mutate (table self) exprs.

Definition select (self : GroupedTable) (exprs : list (list Raw))
    (kwexprs : list (string * Raw)) : result Table :=
  exprs <- _selectables self exprs kwexprs ;;
  table_select (table self) exprs.

(** The aggregate and window calls of an expression that are not below
    another such call, left to right, each with its window if it has one. *)
Fixpoint calls (e : Expr) : list (Expr * option Frame) :=
  match e with
  | Reduction func args => [(Reduction func args, None)]
  | WindowFunction func frame => [(func, Some frame)]
  | Call _ args => flat_map calls args
  | Alias arg _ => calls arg
  | Column _ => []
  | Scalar _ => []
  end.

(** The window a call ends up with under [frame]: its own if it had one. *)
Definition framed (frame : Frame) (c : Expr * option Frame) : Expr * option Frame :=
  (fst c, Some (default frame (snd c))).

(** What a projected expression looks like: some expression, windowized
    with [frame], under a keyword name if it was given one; its calls are
    those of that expression, each framed. *)
Definition projected_with (frame : Frame) (e' : Expr) : Prop :=
  exists e,
    (e' = windowize_function frame e \/ exists k, e' = Alias (windowize_function frame e) k)
    /\ calls e' = List.map (framed frame) (calls e).

End WithTables.

Arguments framed {Table} frame c.
Arguments projected_with {Table} frame e'.
Arguments Column {Table} name.
Arguments Reduction {Table} func args.
Arguments Call {Table} func args.
Arguments WindowFunction {Table} func frame.
Arguments Alias {Table} arg name.
Arguments Scalar {Table} v.
Arguments KStr {Table} value.
Arguments KFunction {Table} value.
Arguments KDeferred {Table} resolve.
Arguments KSelector {Table} expand.
Arguments KExpr {Table} value.
Arguments KOther {Table} value.
Arguments mkGroupedTable {Table} table by_ _order_by _having _window.
Arguments table {Table} g.
Arguments by_ {Table} g.
Arguments _order_by {Table} g.
Arguments _having {Table} g.
Arguments _window {Table} g.
Arguments RowsWindowFrame {Table} table group_by order_by.
Arguments _get_group_by_key {Table} getitem sub_immediate_parents table value.
Arguments GroupedTable_init {Table} getitem sub_immediate_parents
  table by_ having order_by window expressions.
Arguments rebuild {Table} getitem sub_immediate_parents self having order_by window.
Arguments having {Table} getitem sub_immediate_parents self expr.
Arguments order_by_ {Table} getitem sub_immediate_parents self expr.
Arguments _get_window {Table} copy self.
Arguments over {Table} getitem sub_immediate_parents ibis_window
  self window rows range group_by order_by.
Arguments windowize_function {Table} frame e.
Arguments _selectables {Table Raw} ensure_exprs copy self exprs kwexprs.
Arguments mutate {Table Raw} ensure_exprs copy table_mutate self exprs kwexprs.
Arguments select {Table Raw} ensure_exprs copy table_select self exprs kwexprs.
Arguments calls {Table} e.

End groupby.

(** ** Sample interpretations

    Concrete choices for what the development leaves open, to run the rules
    on examples: the outside functions, translators for the operands of a
    rule, and [copy] on window frames. *)

Module examples.

Import ops.

Definition externals : Externals := {|
  repr_finite_float := fun _ => "1.5";
  object_float := fun _ => Raise (TypeError "float() argument must be a string or a real number");
  dtype_repr := dt.str;
  strftime_ymd := fun _ => "2023-03-01";
  isoformat := fun _ => "2023-03-01T00:00:00";
  datetime_date := fun v => v;
  b64encode_utf8 := fun s => s;
  ibis_type_to_bigquery_type := fun d => enums.upper (dt.str d);
  get_sqla_type := fun d => enums.upper (dt.str d)
|}.

#[local] Existing Instance externals.

(** [ops.TableColumn], known here by the name of its column. *)
Definition column (name : string) (dtype : dt.DataType) : Node :=
  mkNode "TableColumn" [ArgStr name] dtype.

Definition column_name (op : Node) : result string :=
  match args op with
  | [ArgStr name] => Ok name
  | _ => Raise (AttributeError "name")
  end.

(** A BigQuery translator for columns and literals: literals go through the
    rule the registry stores for them. *)
Definition bigquery_translator : ExprTranslator :=
  mkTranslator
    (fun op =>
       if is_Literal op
       then bigquery._literal (mkTranslator (fun _ => Raise RecursionError)) op
       else column_name op).

Definition duckdb_translator : Translator sa.expr :=
  mkTranslator
    (fun op =>
       if is_Literal op
       then duckdb._literal (mkTranslator (fun _ => Raise RecursionError)) op
       else name <- column_name op ;; Ok (sa.literal_column name)).

(** A rule that stands for one defined outside the sources. *)
Definition unavailable {T : Type} : rule T :=
  fun _ _ => Raise (NotImplementedError "rule defined outside the sources").

Definition Frame : Type := groupby.Frame string.

Definition with_group_by (w : Frame) (l : list (groupby.Expr string)) : Frame :=
  groupby.mkWindowFrame (groupby.how w) (groupby.frame_table w) (groupby.start w)
    (groupby.end_ w) l (groupby.order_by w) (groupby.max_lookback w).

Definition with_order_by (w : Frame) (l : list (groupby.Expr string)) : Frame :=
  groupby.mkWindowFrame (groupby.how w) (groupby.frame_table w) (groupby.start w)
    (groupby.end_ w) (groupby.group_by w) l (groupby.max_lookback w).

(** [copy] rebuilding the frame through its constructor: a keyword that is
    not a field is refused. *)
Fixpoint copy_by_constructor (w : Frame)
    (overrides : list (string * list (groupby.Expr string))) : result Frame :=
  match overrides with
  | [] => Ok w
  | (name, value) :: rest =>
      if String.eqb name "group_by" then copy_by_constructor (with_group_by w value) rest
      else if String.eqb name "order_by" then copy_by_constructor (with_order_by w value) rest
      else Raise (TypeError ("got an unexpected keyword argument " +:+ repr_str name))
  end.

(** [copy] setting attributes on a duplicate: a keyword that is not a field
    changes no field. *)
Fixpoint copy_by_setattr (w : Frame)
    (overrides : list (string * list (groupby.Expr string))) : result Frame :=
  match overrides with
  | [] => Ok w
  | (name, value) :: rest =>
      if String.eqb name "group_by" then copy_by_setattr (with_group_by w value) rest
      else if String.eqb name "order_by" then copy_by_setattr (with_order_by w value) rest
      else copy_by_setattr w rest
  end.

End examples.

(** * Properties *)

(** ** Texts *)

Module PyFacts.

Lemma append_nil_l (s : string) : EmptyString +:+ s = s.
Proof. reflexivity. Qed.

Lemma append_cons (c : ascii) (s t : string) :
  String c s +:+ t = String c (s +:+ t).
Proof. reflexivity. Qed.

Lemma append_nil_r (s : string) : s +:+ EmptyString = s.
Proof.
  induction s as [|c s IH]; [reflexivity |].
  now rewrite append_cons, IH.
Qed.

Lemma append_assoc (s t u : string) : (s +:+ t) +:+ u = s +:+ (t +:+ u).
Proof.
  induction s as [|c s IH]; [reflexivity |].
  now rewrite !append_cons, IH.
Qed.

Lemma prefix_app (p s : string) : String.prefix p (p +:+ s) = true.
Proof.
  induction p as [|c p IH].
  - rewrite append_nil_l. now destruct s.
  - rewrite append_cons. simpl.
    destruct (ascii_dec c c) as [_|Hne]; [exact IH | now elim Hne].
Qed.

Lemma substringb_prefix (needle s : string) :
  String.prefix needle s = true -> substringb needle s = true.
Proof. destruct s; simpl; intros ->; reflexivity. Qed.

Lemma substringb_cons (needle : string) (c : ascii) (s : string) :
  substringb needle (String c s)
  = String.prefix needle (String c s) || substringb needle s.
Proof. reflexivity. Qed.

(** A text mentions whatever was spliced into it. *)
Lemma substringb_app (needle before after : string) :
  substringb needle (before +:+ needle +:+ after) = true.
Proof.
  induction before as [|c before IH].
  - rewrite append_nil_l. apply substringb_prefix, prefix_app.
  - rewrite append_cons, substringb_cons, IH. apply orb_true_r.
Qed.

Lemma substringb_app_r (needle before : string) :
  substringb needle (before +:+ needle) = true.
Proof.
  rewrite <- (append_nil_r needle) at 2. apply substringb_app.
Qed.

Lemma prefix_app_l (needle s after : string) :
  String.prefix needle s = true -> String.prefix needle (s +:+ after) = true.
Proof.
  revert s. induction needle as [|a needle IH]; intros s Hp.
  - now destruct (s +:+ after).
  - destruct s as [|c s]; simpl in Hp; [discriminate |].
    rewrite append_cons. simpl.
    destruct (ascii_dec a c); [now apply IH | discriminate].
Qed.

Lemma substringb_trans_l (needle s after : string) :
  substringb needle s = true -> substringb needle (s +:+ after) = true.
Proof.
  induction s as [|c s IH].
  - simpl. rewrite orb_false_r. intros Hp.
    apply substringb_prefix. now apply (prefix_app_l needle EmptyString after).
  - rewrite append_cons, !substringb_cons.
    destruct (String.prefix needle (String c s)) eqn:Hp.
    + intros _. apply (prefix_app_l _ _ after) in Hp.
      rewrite append_cons in Hp. now rewrite Hp.
    + intros Hs. rewrite (IH Hs). apply orb_true_r.
Qed.

Lemma substringb_trans_r (needle before s : string) :
  substringb needle s = true -> substringb needle (before +:+ s) = true.
Proof.
  intros Hs. induction before as [|c before IH].
  - now rewrite append_nil_l.
  - rewrite append_cons, substringb_cons, IH. apply orb_true_r.
Qed.

Lemma sequence_raise {A : Type} (l : list (result A)) (e : exn) :
  In (Raise e) l -> exists e', sequence l = Raise e'.
Proof.
  induction l as [|m l IH]; simpl; [tauto |].
  intros [Hm | Hin].
  - subst m. now exists e.
  - destruct m as [a | e0]; simpl; [| now exists e0].
    destruct (IH Hin) as [e' He']. rewrite He'. now exists e'.
Qed.

Lemma sequence_ok {A : Type} (l : list (result A)) :
  Forall (fun m => is_ok m = true) l -> is_ok (sequence l) = true.
Proof.
  induction 1 as [|m l Hm _ IH]; simpl; [reflexivity |].
  destruct m as [a | e]; simpl in *; [| discriminate].
  destruct (sequence l); simpl in *; [reflexivity | discriminate].
Qed.

End PyFacts.

(** ** Data types *)

Module DatatypesFacts.

Import dt.

(** One more step along [bases] reaches no further class: the depth that
    [issubclass] allows is enough for the whole taxonomy. *)
Lemma issubclass_depth_suffices (c d : cls) :
  issubclass_within 7 c d = issubclass c d.
Proof. destruct c; destruct d; vm_compute; reflexivity. Qed.

Lemma issubclass_refl (c : cls) : issubclass c c = true.
Proof. destruct c; reflexivity. Qed.

(** C1, as stated, fails on the code: a scale above the precision is
    rejected with a [ValueError], not with a type error, and precision 0 with
    scale 0 satisfies precision >= scale >= 0 and is rejected all the same. *)
Lemma Decimal_init_counterexample :
  (2 > 1
   /\ Decimal_init (VInt 1) (VInt 2) true
      = Raise (ValueError
                 "Decimal type precision must be greater than or equal to scale. Got precision=1 and scale=2"))
  /\ (0 >= 0 /\ 0 >= 0
      /\ Decimal_init (VInt 0) (VInt 0) true
         = Raise (ValueError "Decimal type precision cannot be zero")).
Proof. repeat split; try lia; vm_compute; reflexivity. Qed.

(** C1, amended: for integer [precision] and [scale], a scale above the
    precision, a precision of zero, a negative precision or a negative scale
    make [Decimal.__init__] raise a [ValueError], and no value is built; with
    precision >= scale >= 0 and precision > 0 the construction succeeds and
    stores both fields. *)
Theorem Decimal_init_validates (precision scale : Z) (nullable : bool) :
  (scale > precision \/ precision = 0 \/ precision < 0 \/ scale < 0 ->
   exists msg,
     Decimal_init (VInt precision) (VInt scale) nullable = Raise (ValueError msg))
  /\ (precision >= scale /\ scale >= 0 /\ precision > 0 ->
      Decimal_init (VInt precision) (VInt scale) nullable
      = Ok (Decimal (Some precision) (Some scale) nullable)).
Proof.
  unfold Decimal_init; simpl.
  destruct (precision <? 0) eqn:Hneg; [apply Z.ltb_lt in Hneg | apply Z.ltb_ge in Hneg].
  { split; [intros _; eexists; reflexivity | lia]. }
  destruct (precision =? 0) eqn:Hzero; [apply Z.eqb_eq in Hzero | apply Z.eqb_neq in Hzero].
  { split; [intros _; eexists; reflexivity | lia]. }
  simpl.
  destruct (scale <? 0) eqn:Hsneg; [apply Z.ltb_lt in Hsneg | apply Z.ltb_ge in Hsneg].
  { split; [intros _; eexists; reflexivity | lia]. }
  destruct (precision <? scale) eqn:Hlt; [apply Z.ltb_lt in Hlt | apply Z.ltb_ge in Hlt].
  { split; [intros _; eexists; reflexivity | lia]. }
  simpl. split; [lia | reflexivity].
Qed.

Lemma Decimal_init_validates_witness :
  (exists msg, Decimal_init (VInt 1) (VInt 2) true = Raise (ValueError msg))
  /\ Decimal_init (VInt 10) (VInt 2) true = Ok (Decimal (Some 10) (Some 2) true).
Proof.
  split.
  - apply (Decimal_init_validates 1 2 true). lia.
  - apply (Decimal_init_validates 10 2 true). lia.
Defined.

(** A type error is what a non-integer argument gets. *)
Lemma Decimal_init_non_integer (precision scale : pyvalue) (nullable : bool) :
  precision <> VNone -> is_Integral precision = false ->
  exists msg, Decimal_init precision scale nullable = Raise (TypeError msg).
Proof.
  intros Hnone Hint. unfold Decimal_init.
  destruct precision; try discriminate; try congruence; simpl; eexists; reflexivity.
Qed.

(** C8, as stated, fails on the code: [MACADDR] and [INET] are declared as
    subclasses of [String], so [is_string] answers [True] for them. *)
Lemma is_string_inet_macaddr_counterexample :
  is_string inet = true /\ is_string macaddr = true
  /\ bases C_INET = [C_String] /\ bases C_MACADDR = [C_String].
Proof. repeat split. Qed.

(** C8, amended: [is_string] holds exactly of the instances of [String] and
    of its two subclasses [MACADDR] and [INET]. *)
Theorem is_string_exactly (self : DataType) :
  is_string self = true
  <-> class_of self = C_String \/ class_of self = C_MACADDR \/ class_of self = C_INET.
Proof.
  unfold is_string, isinstance.
  destruct (class_of self); vm_compute; split; intros Hc;
    try discriminate; try reflexivity; try tauto;
    destruct Hc as [Hc | [Hc | Hc]]; discriminate.
Qed.

Lemma is_string_exactly_witness :
  is_string inet = true /\ is_string int64 = false.
Proof.
  split.
  - apply (is_string_exactly inet). right; right; reflexivity.
  - destruct (is_string int64) eqn:Hs; [| reflexivity].
    apply (is_string_exactly int64) in Hs.
    destruct Hs as [Hs | [Hs | Hs]]; discriminate.
Defined.

(** C10: the bounds of the integer types.  For an unsigned type of [n]
    bytes, [bounds] is 0 and 2^(8n-1), half of 2^(8n) and not the largest
    representable value 2^(8n)-1 ([UInt8]: 128); for a signed type it is
    -2^(8n-1) and 2^(8n-1)-1. *)
Theorem integer_bounds (c : cls) (n : Z) (nullable : bool) :
  nbytes c = Some n ->
  (issubclass c C_UnsignedInteger = true ->
   bounds (Plain c nullable) = Ok (mkBounds 0 (2 ^ (8 * n - 1)))
   /\ 2 * 2 ^ (8 * n - 1) = 2 ^ (8 * n)
   /\ 2 ^ (8 * n - 1) <> 2 ^ (8 * n) - 1)
  /\ (issubclass c C_SignedInteger = true ->
      bounds (Plain c nullable)
      = Ok (mkBounds (- 2 ^ (8 * n - 1)) (2 ^ (8 * n - 1) - 1))).
Proof.
  intros Hn.
  destruct c; simpl in Hn; try discriminate; injection Hn as <-;
    split; intros Hsub; try (vm_compute in Hsub; discriminate);
    vm_compute; repeat split; discriminate.
Qed.

Lemma integer_bounds_witness :
  bounds uint8 = Ok (mkBounds 0 128)
  /\ bounds int8 = Ok (mkBounds (-128) 127).
Proof.
  split.
  - apply (integer_bounds C_UInt8 1 true); reflexivity.
  - apply (integer_bounds C_Int8 1 true); reflexivity.
Defined.

End DatatypesFacts.

(** ** Literals *)

Module LiteralFacts.

Import ops.

Section WithExternals.
Context `{Externals}.

Lemma literal_dispatches_numbers (t : ExprTranslator) (v : pyvalue) (nullable : bool) :
  v <> VNone ->
  literal.literal t (Literal v (dt.Plain dt.C_Float64 nullable))
  = literal._number_literal_format t (Literal v (dt.Plain dt.C_Float64 nullable)).
Proof. intros Hv. destruct v; try congruence; reflexivity. Qed.


(** The text for [float("nan")] holds the cast and is not the bare token. *)
Lemma nan_literal_text (t : ExprTranslator) :
  exists text,
    literal.literal t (Literal (VFloat S754_nan) dt.float64) = Ok text
    /\ substringb "CAST('NaN' AS DOUBLE)" text = true
    /\ text <> "NaN".
Proof. eexists. split; [reflexivity | split; [reflexivity | discriminate]]. Qed.

(** C7: a literal whose value is [None] is rendered as the null token
    whatever its type, by the generic formatter, by the BigQuery rule and by
    the DuckDB rule ([sa.null()]); the test comes before the dispatch on the
    type, so a type without a formatter ([uuid] in the generic formatter)
    is rendered too, although any other value of that type is refused. *)
Theorem none_literal_is_null
    (t : ExprTranslator) (t' : Translator sa.expr) (dtype : dt.DataType) :
  literal.literal t (Literal VNone dtype) = Ok "NULL"
  /\ bigquery._literal t (Literal VNone dtype) = Ok "NULL"
  /\ duckdb._literal t' (Literal VNone dtype) = Ok sa.null
  /\ literal.literal t (Literal VNone dt.uuid) = Ok "NULL"
  /\ literal.literal t (Literal (VStr "6f0c") dt.uuid)
     = Raise (NotImplementedError ("Unsupported type: " +:+ dtype_repr dt.uuid)).
Proof. repeat split. Qed.

End WithExternals.

End LiteralFacts.

(** ** Registries and rules *)

Module RegistryFacts.

Import ops.

Lemma dict_filter_denied {V : Type} (denied : gset string) (m : gmap string V) (k : string) :
  k ∈ denied -> filter (fun kv => fst kv ∉ denied) m !! k = None.
Proof.
  intros Hk. apply map_lookup_filter_None_2. right.
  intros x _ Hnot. simpl in Hnot. contradiction.
Qed.

Lemma dict_filter_kept {V : Type} (denied : gset string) (m : gmap string V) (k : string) :
  k ∉ denied -> filter (fun kv => fst kv ∉ denied) m !! k = m !! k.
Proof.
  intros Hk. destruct (m !! k) as [v|] eqn:Hm.
  - apply map_lookup_filter_Some_2; [exact Hm | exact Hk].
  - apply map_lookup_filter_None_2. now left.
Qed.

Lemma translate_step {T : Type} (dialect : string)
    (registry : gmap string (rule T)) (depth : nat) (op : Node) :
  compiler.translate dialect registry (S depth) op
  = (_ <- sequence (List.map (compiler.translate dialect registry depth) (children op)) ;;
     match registry !! kind op with
     | Some formatter =>
         formatter (mkTranslator (compiler.translate dialect registry depth)) op
     | None =>
         Raise (OperationNotDefinedError
                  (dialect +:+ ": no translation rule for " +:+ kind op))
     end).
Proof. reflexivity. Qed.

(** Under the walk of the specification, an expression holding an operation
    without a rule never yields text, whatever the call stack allows. *)
Lemma translate_raises_without_rule {T : Type} (dialect : string)
    (registry : gmap string (rule T)) (op root : Node) :
  occurs_in op root -> registry !! kind op = None ->
  forall depth, exists e, compiler.translate dialect registry depth root = Raise e.
Proof.
  intros Hocc Hnone. induction Hocc as [| parent child Hin _ IH]; intros depth.
  - destruct depth as [|depth]; [now eexists |].
    rewrite translate_step. unfold rule in *. rewrite Hnone.
    destruct (sequence _) as [l | e]; now eexists.
  - destruct depth as [|depth]; [now eexists |].
    rewrite translate_step.
    destruct (IH depth) as [e He].
    destruct (PyFacts.sequence_raise
                (List.map (compiler.translate dialect registry depth) (children parent)) e)
      as [e' He'].
    + rewrite <- He. now apply in_map.
    + rewrite He'. now eexists.
Qed.

(** With room on the stack and children that translate, the exception is
    the one that reports the missing rule. *)
Lemma translate_leaf_without_rule {T : Type} (dialect : string)
    (registry : gmap string (rule T)) (depth : nat) (op : Node) :
  children op = [] -> registry !! kind op = None ->
  compiler.translate dialect registry (S depth) op
  = Raise (OperationNotDefinedError
             (dialect +:+ ": no translation rule for " +:+ kind op)).
Proof.
  intros Hc Hnone. rewrite translate_step, Hc. unfold rule in *.
  now rewrite Hnone.
Qed.

Section WithExternals.
Context `{Externals}.

Variable postgres_operation_registry : gmap string (rule sa.expr).
Variable geospatial_functions : gmap string (rule sa.expr).
Variable pg_array_index : (sa.expr -> sa.expr -> sa.expr) -> string -> rule sa.expr.
Variable pg_array_slice :
  (sa.expr -> sa.expr -> sa.expr) -> string -> string -> rule sa.expr.
Variable duckdb_rule_of_source : string -> rule sa.expr.
Variable sql_operation_registry : gmap string (rule string).
Variable bigquery_rule_of_source : string -> rule string.

Let duckdb_registry : gmap string (rule sa.expr) :=
  duckdb.operation_registry postgres_operation_registry geospatial_functions
    pg_array_index pg_array_slice duckdb_rule_of_source.

Let bigquery_registry : gmap string (rule string) :=
  bigquery.OPERATION_REGISTRY sql_operation_registry bigquery_rule_of_source.

(** The denylists are the ones the specification lists. *)
Lemma denylists_as_listed :
  Forall (fun k => k ∈ duckdb._invalid_operations)
         ["CumulativeAll"; "CumulativeAny"; "CumulativeOp"; "NTile";
          "Translate"; "ToJSONMap"; "ToJSONArray"]
  /\ Forall (fun k => k ∈ bigquery._invalid_operations)
            ["FindInSet"; "DateDiff"; "TimestampDiff";
             "ExtractAuthority"; "ExtractFile"; "ExtractFragment"; "ExtractHost";
             "ExtractPath"; "ExtractProtocol"; "ExtractQuery"; "ExtractUserInfo"].
Proof.
  split; repeat constructor;
    (apply elem_of_list_to_set, list_elem_of_In; simpl; tauto).
Qed.

(** C3: whatever the registries below them hold, the final DuckDB and
    BigQuery registries have no rule under a denylisted key; so, with the
    translator of the specification, compiling an expression in which such an
    operation occurs raises and returns no text. *)
Theorem denylisted_operations_have_no_rule (k : string) :
  (k ∈ duckdb._invalid_operations ->
   duckdb_registry !! k = None
   /\ forall (depth : nat) (root op : Node),
        occurs_in op root -> kind op = k ->
        exists e, compiler.compile "duckdb" duckdb_registry depth root = Raise e)
  /\ (k ∈ bigquery._invalid_operations ->
      bigquery_registry !! k = None
      /\ forall (depth : nat) (root op : Node),
           occurs_in op root -> kind op = k ->
           exists e, compiler.compile "bigquery" bigquery_registry depth root = Raise e).
Proof.
  split; intros Hk.
  - assert (Hnone : duckdb_registry !! k = None)
      by (apply dict_filter_denied; exact Hk).
    split; [exact Hnone |].
    intros depth root op Hocc Hkind. subst k.
    now apply (translate_raises_without_rule "duckdb" duckdb_registry op root).
  - assert (Hnone : bigquery_registry !! k = None)
      by (apply dict_filter_denied; exact Hk).
    split; [exact Hnone |].
    intros depth root op Hocc Hkind. subst k.
    now apply (translate_raises_without_rule "bigquery" bigquery_registry op root).
Qed.

End WithExternals.

End RegistryFacts.

(** ** Dialect rules *)

Module RuleFacts.

Import ops.

(** *** Array indexing *)

(** C4: the BigQuery rule for [ArrayIndex] splices the translated index into
    [SAFE_OFFSET] as it is.  Whatever the index, a negative literal
    included, the text carries no [ARRAY_LENGTH(...) + index] arithmetic. *)
Theorem bigquery_array_index_splices_index
    (t : ExprTranslator) (arr index : Node) (dtype : dt.DataType) (a i : string) :
  translate t arr = Ok a -> translate t index = Ok i ->
  bigquery._array_index t (ArrayIndex arr index dtype)
  = Ok (a +:+ "[SAFE_OFFSET(" +:+ i +:+ ")]").
Proof.
  intros Ha Hi. unfold bigquery._array_index, ArrayIndex, ops.arg, ops.index, ops.node_at.
  simpl. rewrite Ha. simpl. rewrite Hi. reflexivity.
Qed.

(** The sibling rule for [ArraySlice] in the same module does normalize its
    bounds, through [_neg_idx_to_pos]. *)
Lemma bigquery_array_slice_normalizes
    (t : ExprTranslator) (arr start : Node) (dtype : dt.DataType) (a s : string) :
  translate t arr = Ok a -> translate t start = Ok s ->
  bigquery._array_slice t (mkNode "ArraySlice" [ArgNode arr; ArgNode start; ArgNone] dtype)
  = Ok ("ARRAY(SELECT el FROM UNNEST(" +:+ a +:+ ") AS el WITH OFFSET index WHERE "
        +:+ ("index >= " +:+ bigquery._neg_idx_to_pos a s) +:+ ")").
Proof.
  intros Ha Hs. unfold bigquery._array_slice, ops.arg, ops.node_at.
  simpl. rewrite Ha. simpl. rewrite Hs. reflexivity.
Qed.

(** The DuckDB converter handed to [ArrayIndex] and [ArraySlice] denotes
    [length + max(idx, -length)] for a negative index and the index itself
    otherwise; from the last element back to the first that is
    [length + idx]. *)
Lemma duckdb_neg_idx_to_pos_denotes (array : sa.expr) (length idx : Z) :
  sa.eval length (duckdb._neg_idx_to_pos array (sa.literal (VInt idx)))
  = Some (if idx <? 0 then length + Z.max idx (- length) else idx).
Proof.
  unfold duckdb._neg_idx_to_pos, duckdb.if_. simpl.
  destruct (idx <? 0); reflexivity.
Qed.

Lemma duckdb_neg_idx_to_pos_in_range (array : sa.expr) (length idx : Z) :
  - length <= idx < 0 ->
  sa.eval length (duckdb._neg_idx_to_pos array (sa.literal (VInt idx)))
  = Some (length + idx).
Proof.
  intros [Hlo Hhi]. rewrite duckdb_neg_idx_to_pos_denotes.
  apply Z.ltb_lt in Hhi. rewrite Hhi. f_equal. lia.
Qed.

(** *** Units *)

Lemma unit_repr_names_unit (unit : enums.Unit) :
  substringb (enums.name unit) (enums.repr unit) = true.
Proof. destruct unit as [u | u | u | u]; destruct u; reflexivity. Qed.

Lemma unit_str_names_unit (unit : enums.Unit) :
  substringb (enums.name unit) (enums.str unit) = true.
Proof. destruct unit as [u | u | u | u]; destruct u; reflexivity. Qed.



End RuleFacts.

(** ** The theorems above at concrete inputs *)

Module Witnesses.

Import ops.

Lemma denylisted_operations_have_no_rule_witness :
  let duckdb_registry :=
    duckdb.operation_registry (H:=examples.externals) ∅ ∅
      (fun _ _ => examples.unavailable) (fun _ _ _ => examples.unavailable)
      (fun _ => examples.unavailable) in
  let bigquery_registry :=
    bigquery.OPERATION_REGISTRY (H:=examples.externals) ∅
      (fun _ => examples.unavailable) in
  (duckdb_registry !! "NTile" = None
   /\ exists e,
       compiler.compile "duckdb" duckdb_registry 3
         (mkNode "NTile" [ArgNode (examples.column "x" dt.int64); ArgValue (VInt 4)] dt.int64)
       = Raise e)
  /\ (bigquery_registry !! "FindInSet" = None
      /\ exists e,
          compiler.compile "bigquery" bigquery_registry 3
            (mkNode "Upper"
               [ArgNode (mkNode "FindInSet" [ArgNode (examples.column "s" dt.string)] dt.int64)]
               dt.string)
          = Raise e).
Proof.
  intros duckdb_registry bigquery_registry. split.
  - destruct (RegistryFacts.denylisted_operations_have_no_rule
                (H:=examples.externals) ∅ ∅
                (fun _ _ => examples.unavailable) (fun _ _ _ => examples.unavailable)
                (fun _ => examples.unavailable) ∅ (fun _ => examples.unavailable)
                "NTile") as [Hduck _].
    destruct Hduck as [Hnone Hraise].
    + apply elem_of_list_to_set, list_elem_of_In. simpl. tauto.
    + split; [exact Hnone |].
      apply (Hraise 3%nat _
               (mkNode "NTile" [ArgNode (examples.column "x" dt.int64); ArgValue (VInt 4)]
                       dt.int64)).
      * apply occurs_here.
      * reflexivity.
  - destruct (RegistryFacts.denylisted_operations_have_no_rule
                (H:=examples.externals) ∅ ∅
                (fun _ _ => examples.unavailable) (fun _ _ _ => examples.unavailable)
                (fun _ => examples.unavailable) ∅ (fun _ => examples.unavailable)
                "FindInSet") as [_ Hbq].
    destruct Hbq as [Hnone Hraise].
    + apply elem_of_list_to_set, list_elem_of_In. simpl. tauto.
    + split; [exact Hnone |].
      apply (Hraise 3%nat _
               (mkNode "FindInSet" [ArgNode (examples.column "s" dt.string)] dt.int64)).
      * eapply occurs_below; [| apply occurs_here]. simpl. now left.
      * reflexivity.
Defined.

Lemma bigquery_array_index_splices_index_witness :
  bigquery._array_index examples.bigquery_translator
    (ArrayIndex (examples.column "arr" (dt.Array dt.int64 true))
                (Literal (VInt (-1)) dt.int64) dt.int64)
  = Ok "arr[SAFE_OFFSET(-1)]"
  /\ substringb "ARRAY_LENGTH" "arr[SAFE_OFFSET(-1)]" = false.
Proof.
  split; [| reflexivity].
  apply (RuleFacts.bigquery_array_index_splices_index examples.bigquery_translator
           (examples.column "arr" (dt.Array dt.int64 true))
           (Literal (VInt (-1)) dt.int64) dt.int64 "arr" "-1").
  - reflexivity.
  - vm_compute. reflexivity.
Defined.


End Witnesses.

(** ** Grouped tables *)

Module GroupByFacts.

Import groupby.

Lemma sequence_map_ok {A B : Type} (f : A -> result B) (l : list A) (r : list B) :
  sequence (List.map f l) = Ok r -> Forall2 (fun a b => f a = Ok b) l r.
Proof.
  revert r. induction l as [|a l IH]; intros r Hseq; simpl in Hseq.
  - injection Hseq as <-. constructor.
  - destruct (f a) as [b | e] eqn:Hfa; simpl in Hseq; [| discriminate].
    destruct (sequence (List.map f l)) as [tl | e]; simpl in Hseq; [| discriminate].
    injection Hseq as <-. constructor; [exact Hfa | now apply IH].
Qed.

Lemma Forall2_concat_r {A B : Type} (P : B -> Prop) (R : A -> list B -> Prop)
    (l : list A) (r : list (list B)) :
  Forall2 R l r -> (forall a bs, R a bs -> Forall P bs) -> Forall P (concat r).
Proof.
  intros HR Himp. induction HR as [|a bs l r Hab _ IH]; simpl.
  - constructor.
  - apply Forall_app. split; [now apply (Himp a) | exact IH].
Qed.

Section WithTables.

Variable Table : Type.
Variable Raw : Type.
Variable getitem : Table -> string -> result (Expr Table).
Variable sub_immediate_parents : Expr Table -> Table -> Expr Table.
Variable ensure_exprs : Table -> Raw -> result (list (Expr Table)).
Variable copy :
  Frame Table -> list (string * list (Expr Table)) -> result (Frame Table).

(** Windowizing wraps each aggregate call that has no window in the given
    frame and leaves the explicitly windowed ones alone. *)
Lemma calls_windowize_function (frame : Frame Table) :
  forall e : Expr Table,
    calls (windowize_function frame e) = List.map (framed frame) (calls e).
Proof.
  fix IH 1. intros [name | func args | func args | func explicit | arg name | v]; simpl.
  - reflexivity.
  - reflexivity.
  - induction args as [|a args IHargs]; simpl; [reflexivity |].
    now rewrite List.map_app, IH, IHargs.
  - reflexivity.
  - apply IH.
  - reflexivity.
Qed.

Lemma windowized_is_projected (frame : Frame Table) (e : Expr Table) :
  projected_with frame (windowize_function frame e).
Proof. exists e. split; [now left | apply calls_windowize_function]. Qed.

Lemma aliased_is_projected (frame : Frame Table) (e : Expr Table) (k : string) :
  projected_with frame (Alias (windowize_function frame e) k).
Proof.
  exists e. split; [right; now exists k | apply calls_windowize_function].
Qed.


(** C9: on a grouped table with an explicit window, [_get_window] hands
    [copy] the merged keys under the keyword [groupy_by], never under
    [group_by].  So, as long as [copy] changes the field [group_by] only
    when told to by that keyword, the frame it returns (if any) still has
    the [group_by] of the explicit window alone, which differs from the
    merged list whenever there is a grouping key. *)
Theorem explicit_window_keys_are_not_merged
    (self : GroupedTable Table) (window : Frame Table) :
  _window self = Some window ->
  by_ self <> [] ->
  (forall w overrides w',
      copy w overrides = Ok w' ->
      Forall (fun kv => fst kv <> "group_by") overrides ->
      group_by w' = group_by w) ->
  _get_window copy self
  = copy window [("groupy_by", (group_by window ++ by_ self)%list);
                 ("order_by", (order_by window ++ _order_by self)%list)]
  /\ forall merged,
       _get_window copy self = Ok merged ->
       group_by merged = group_by window
       /\ group_by merged <> (group_by window ++ by_ self)%list.
Proof.
  intros Hwin Hkeys Hcopy.
  assert (Hget : _get_window copy self
                 = copy window [("groupy_by", (group_by window ++ by_ self)%list);
                                ("order_by", (order_by window ++ _order_by self)%list)])
    by (unfold _get_window; now rewrite Hwin).
  split; [exact Hget |].
  intros merged Hmerged. rewrite Hget in Hmerged.
  assert (Hsame : group_by merged = group_by window).
  { apply (Hcopy _ _ _ Hmerged). repeat constructor; simpl; discriminate. }
  split; [exact Hsame |].
  rewrite Hsame. intros Heq. apply Hkeys.
  apply (f_equal (@length _)) in Heq. rewrite length_app in Heq.
  destruct (by_ self); [reflexivity | simpl in Heq; lia].
Qed.

End WithTables.


Lemma explicit_window_keys_are_not_merged_witness :
  let window : Frame string :=
    mkWindowFrame "rows" None None None [Column "g"] [] None in
  let self : GroupedTable string :=
    mkGroupedTable "t" [Column "k"] [] [] (Some window) in
  _get_window examples.copy_by_setattr self = Ok window
  /\ group_by window <> [Column "g"; Column "k"].
Proof.
  intros window self.
  destruct (explicit_window_keys_are_not_merged string examples.copy_by_setattr
              self window eq_refl) as [_ Hmerged].
  - discriminate.
  - intros w overrides. revert w.
    induction overrides as [|[name value] rest IH]; intros w w' Hcopy Hnames; simpl in Hcopy.
    + now injection Hcopy as <-.
    + apply Forall_cons in Hnames as [Hname Hrest]. simpl in Hname.
      apply String.eqb_neq in Hname. rewrite Hname in Hcopy.
      destruct (String.eqb name "order_by").
      * now rewrite (IH _ _ Hcopy Hrest).
      * now apply IH.
  - split; [reflexivity |].
    exact (proj2 (Hmerged window eq_refl)).
Defined.

(** The same table under a [copy] that goes through the constructor: the
    misspelt keyword is refused and no frame is returned at all. *)
Lemma explicit_window_under_strict_copy :
  _get_window examples.copy_by_constructor
    (mkGroupedTable "t" [Column "k"] [] []
       (Some (mkWindowFrame "rows" None None None [Column "g"] [] None)))
  = Raise (TypeError "got an unexpected keyword argument 'groupy_by'").
Proof. reflexivity. Qed.

End GroupByFacts.

(** ** More on data types *)

Module TaxonomyFacts.

Import dt.

Lemma all_classes_complete (c : cls) : In c all_classes.
Proof. destruct c; vm_compute; tauto. Qed.

Lemma forall_classes (P : cls -> bool) :
  forallb P all_classes = true -> forall c, P c = true.
Proof.
  intros Hall c. rewrite forallb_forall in Hall. apply Hall, all_classes_complete.
Qed.

(** X1: [issubclass] orders the classes of the module: it is reflexive,
    transitive and antisymmetric, and [DataType] is above every class. *)
Theorem issubclass_partial_order :
  (forall c, issubclass c c = true)
  /\ (forall a b c,
         issubclass a b = true -> issubclass b c = true -> issubclass a c = true)
  /\ (forall a b, issubclass a b = true -> issubclass b a = true -> a = b)
  /\ (forall c, issubclass c C_DataType = true).
Proof.
  split; [| split; [| split]].
  - apply forall_classes. vm_compute. reflexivity.
  - intros a b c Hab Hbc.
    assert (Hall : forallb (fun a => forallb (fun b => forallb (fun c =>
              implb (issubclass a b && issubclass b c) (issubclass a c))
              all_classes) all_classes) all_classes = true)
      by (vm_compute; reflexivity).
    pose proof (forall_classes _ (forall_classes _ (forall_classes _ Hall a) b) c) as H.
    simpl in H. rewrite Hab, Hbc in H. exact H.
  - intros a b Hab Hba.
    assert (Hall : forallb (fun a => forallb (fun b =>
              implb (issubclass a b && issubclass b a) (cls_beq a b))
              all_classes) all_classes = true)
      by (vm_compute; reflexivity).
    pose proof (forall_classes _ (forall_classes _ Hall a) b) as H.
    simpl in H. rewrite Hab, Hba in H. now apply internal_cls_dec_bl.
  - apply forall_classes. vm_compute. reflexivity.
Qed.

Lemma issubclass_partial_order_witness :
  issubclass C_Int8 C_Numeric = true.
Proof.
  destruct issubclass_partial_order as [_ [Htrans _]].
  apply (Htrans C_Int8 C_SignedInteger C_Numeric); reflexivity.
Defined.

(** X2: how the kind predicates sit in one another, for every data type:
    signed and unsigned integers are integers and never both; integers and
    floating types are numeric and primitive, and never both; a decimal is
    numeric and not primitive; dates, times and timestamps are temporal; no
    type is numeric and temporal; [INET] and [MACADDR] types are strings and
    variadic; the nested types are the arrays, maps, structs and sets. *)
Theorem kind_predicates_nest (self : DataType) :
  implb (is_signed_integer self || is_unsigned_integer self) (is_integer self) = true
  /\ is_signed_integer self && is_unsigned_integer self = false
  /\ implb (is_integer self || is_floating self)
           (is_numeric self && is_primitive self) = true
  /\ is_integer self && is_floating self = false
  /\ implb (is_decimal self) (is_numeric self && negb (is_primitive self)) = true
  /\ implb (is_date self || is_time self || is_timestamp self) (is_temporal self) = true
  /\ is_numeric self && is_temporal self = false
  /\ implb (is_inet self || is_macaddr self) (is_string self && is_variadic self) = true
  /\ is_nested self
     = (is_array self || is_map self || is_struct self || is_set self).
Proof.
  unfold is_signed_integer, is_unsigned_integer, is_integer, is_floating, is_numeric,
    is_primitive, is_decimal, is_date, is_time, is_timestamp, is_temporal, is_inet,
    is_macaddr, is_string, is_variadic, is_nested, is_array, is_map, is_struct, is_set,
    isinstance.
  destruct (class_of self); vm_compute; repeat split.
Qed.

(** X3: [largest] of a decimal whose scale does not exceed its precision
    (as [__init__] guarantees) is the decimal with precision [max(p, 38)] and
    scale [max(s, 2)]; it is nullable whatever the decimal was, and it is its
    own [largest]. *)
Theorem Decimal_largest (precision scale : Z) (nullable : bool) :
  scale <= precision ->
  let big := Decimal (Some (Z.max precision 38)) (Some (Z.max scale 2)) true in
  largest (Decimal (Some precision) (Some scale) nullable) = Ok big
  /\ largest big = Ok big.
Proof.
  intros Hle big.
  assert (Hinit : forall p s, 38 <= p -> 2 <= s -> s <= p ->
            Decimal_init (VInt p) (VInt s) true = Ok (Decimal (Some p) (Some s) true)).
  { intros p s Hp Hs Hsp. unfold Decimal_init. simpl.
    destruct (p <? 0) eqn:H1; [apply Z.ltb_lt in H1; lia |].
    destruct (p =? 0) eqn:H2; [apply Z.eqb_eq in H2; lia |]. simpl.
    destruct (s <? 0) eqn:H3; [apply Z.ltb_lt in H3; lia |].
    destruct (p <? s) eqn:H4; [apply Z.ltb_lt in H4; lia |]. reflexivity. }
  split.
  - unfold largest. apply Hinit; lia.
  - unfold big, largest.
    rewrite (Z.max_l (Z.max precision 38) 38) by lia.
    rewrite (Z.max_l (Z.max scale 2) 2) by lia.
    apply Hinit; lia.
Qed.

Lemma Decimal_largest_witness :
  largest (Decimal (Some 10) (Some 2) false) = Ok (Decimal (Some 38) (Some 2) true).
Proof. apply (Decimal_largest 10 2 false). lia. Defined.



End TaxonomyFacts.

Module StructFacts.

Import dt.

Section Dicts.
Context {V : Type}.

Lemma dict_set_keys (d : list (String.string * V)) (key : String.string) (v : V) (k : String.string) :
  In k (List.map fst (dict_set d key v)) <-> k = key \/ In k (List.map fst d).
Proof.
  induction d as [|[k0 v0] d IH]; simpl.
  - intuition.
  - destruct (String.eqb k0 key) eqn:Hk; simpl.
    + apply String.eqb_eq in Hk. subst k0. intuition.
    + rewrite IH. intuition.
Qed.

Lemma dict_set_NoDup (d : list (String.string * V)) (key : String.string) (v : V) :
  List.NoDup (List.map fst d) -> List.NoDup (List.map fst (dict_set d key v)).
Proof.
  induction d as [|[k0 v0] d IH]; simpl; intros Hnd.
  - constructor; [intros [] | constructor].
  - inversion Hnd as [|? ? Hnotin Hnd']; subst.
    destruct (String.eqb k0 key) eqn:Hk; simpl.
    + now constructor.
    + constructor; [| now apply IH].
      rewrite dict_set_keys. intros [-> | Hin]; [| contradiction].
      now rewrite String.eqb_refl in Hk.
Qed.

Lemma dict_set_lookup (d : list (String.string * V)) (key : String.string) (v : V) (k : String.string) :
  dict_get (dict_set d key v) k
  = if String.eqb key k then Some v else dict_get d k.
Proof.
  unfold dict_get. induction d as [|[k0 v0] d IH]; simpl.
  - now destruct (String.eqb key k).
  - destruct (String.eqb k0 key) eqn:Hk; simpl.
    + apply String.eqb_eq in Hk. subst k0.
      now destruct (String.eqb key k).
    + destruct (String.eqb k0 k) eqn:Hk0; simpl.
      * destruct (String.eqb key k) eqn:Hkk; [| reflexivity].
        apply String.eqb_eq in Hkk, Hk0. subst.
        now rewrite String.eqb_refl in Hk.
      * exact IH.
Qed.

Lemma find_over_app (f : String.string * V -> bool) (l1 l2 : list (String.string * V)) :
  List.find f (l1 ++ l2)
  = match List.find f l1 with Some x => Some x | None => List.find f l2 end.
Proof.
  induction l1 as [|x l1 IH]; simpl; [reflexivity |].
  now destruct (f x).
Qed.

Lemma fold_dict_set_NoDup (pairs d : list (String.string * V)) :
  List.NoDup (List.map fst d) ->
  List.NoDup (List.map fst (fold_left (fun d kv => dict_set d (fst kv) (snd kv)) pairs d)).
Proof.
  revert d. induction pairs as [|[k v] pairs IH]; simpl; intros d Hnd; [exact Hnd |].
  apply IH. now apply dict_set_NoDup.
Qed.

Lemma fold_dict_set_lookup (pairs d : list (String.string * V)) (k : String.string) :
  dict_get (fold_left (fun d kv => dict_set d (fst kv) (snd kv)) pairs d) k
  = match dict_get (rev pairs) k with
    | Some v => Some v
    | None => dict_get d k
    end.
Proof.
  revert d. induction pairs as [|[key v] pairs IH]; simpl; intros d; [reflexivity |].
  rewrite IH, dict_set_lookup. unfold dict_get at 1 3.
  rewrite find_over_app. simpl.
  destruct (List.find _ (rev pairs)) as [kv|]; simpl; [reflexivity |].
  now destruct (String.eqb key k).
Qed.

End Dicts.

(** X5: the struct [Struct.from_tuples] builds has each field name once,
    as many names as types as fields, and under a name the type of the last
    pair given for it; an unknown name is a [KeyError]. *)
Theorem Struct_from_tuples_fields
    (pairs : list (String.string * DataType)) (nullable : bool) (key : String.string) :
  let self := Struct_from_tuples pairs nullable in
  List.NoDup (names self)
  /\ length (names self) = Struct_len self
  /\ length (types self) = Struct_len self
  /\ Struct_getitem self key
     = match List.find (fun kv => String.eqb (fst kv) key) (rev pairs) with
       | Some kv => Ok (snd kv)
       | None => Raise (KeyError key)
       end.
Proof.
  intros self. unfold self, Struct_from_tuples, names, types, Struct_len, fields,
    dict_of_pairs.
  split; [| split; [| split]].
  - apply fold_dict_set_NoDup. constructor.
  - apply length_map.
  - apply length_map.
  - unfold Struct_getitem. simpl.
    pose proof (fold_dict_set_lookup pairs [] key) as Hl. unfold dict_get in Hl.
    simpl in Hl.
    destruct (List.find _ (fold_left _ pairs [])) as [kv|];
      destruct (List.find _ (rev pairs)) as [kv'|]; simpl in Hl;
      try discriminate; [now injection Hl as -> | reflexivity].
Qed.

(** X6: the text of a data type starts with an exclamation mark exactly
    when the type is not nullable. *)
Theorem str_marks_non_nullable (self : DataType) :
  String.prefix "!" (str self) = negb (nullable self).
Proof.
  assert (Hname : forall c rest,
             String.prefix "!" (enums.lower (class_name c) +:+ rest) = false).
  { intros c rest. destruct c; reflexivity. }
  assert (Hbang : forall rest, String.prefix "!" ("!" +:+ rest) = true).
  { intros rest. now destruct rest. }
  assert (Hstr : exists rest,
             str self = str_mul "!" (negb (nullable self))
                        +:+ (enums.lower (class_name (class_of self)) +:+ rest)).
  { destruct self; eexists; reflexivity. }
  destruct Hstr as [rest ->].
  destruct (nullable self); simpl; [apply Hname | apply Hbang].
Qed.

End StructFacts.

(** ** More on literals *)

Module LiteralMoreFacts.

Import ops.

Lemma escape_never_starts_with_quote (s : string) (rest : string) :
  literal.escape_single_quotes s <> String squote rest.
Proof.
  destruct s as [|c s]; simpl; [discriminate |].
  destruct (Ascii.eqb c squote) eqn:Hc; [discriminate |].
  intros [= -> _]. now rewrite Ascii.eqb_refl in Hc.
Qed.

(** Escaping loses nothing: the text reads back as the value. *)
Lemma unescape_escape (s : string) :
  literal.unescape_single_quotes (literal.escape_single_quotes s) = s.
Proof.
  induction s as [|c s IH]; [reflexivity |].
  simpl. destruct (Ascii.eqb c squote) eqn:Hq.
  - apply Ascii.eqb_eq in Hq. subst c. simpl. now rewrite IH.
  - simpl. destruct (Ascii.eqb c backslash) eqn:Hb; [| now rewrite IH].
    pose proof (escape_never_starts_with_quote s) as Hstart.
    destruct (literal.escape_single_quotes s) as [|c' s'] eqn:He.
    + simpl in IH. now rewrite <- IH.
    + destruct (Ascii.eqb c' squote) eqn:Hq'.
      * apply Ascii.eqb_eq in Hq'. subst c'. now elim (Hstart s').
      * now rewrite IH.
Qed.

Lemma escape_without_quotes (s : string) :
  has_char squote s = false -> literal.escape_single_quotes s = s.
Proof.
  induction s as [|c s IH]; [reflexivity |].
  cbn [has_char literal.escape_single_quotes]. intros Hs.
  apply orb_false_elim in Hs as [Hc Hs].
  rewrite Ascii.eqb_sym in Hc. rewrite Hc. now rewrite IH.
Qed.

Lemma length_append (a b : string) :
  String.length (a +:+ b) = (String.length a + String.length b)%nat.
Proof.
  induction a as [|x a IH]; [reflexivity |].
  rewrite PyFacts.append_cons. simpl. now rewrite IH.
Qed.

Lemma append_inv_tail (a b c : string) : a +:+ c = b +:+ c -> a = b.
Proof.
  intros Heq.
  assert (Hlen : String.length a = String.length b).
  { apply (f_equal String.length) in Heq.
    rewrite !length_append in Heq. lia. }
  revert b Heq Hlen. induction a as [|x a IH]; intros [|y b] Heq Hlen;
    simpl in Hlen; try discriminate; [reflexivity |].
  rewrite !PyFacts.append_cons in Heq. injection Heq as -> Heq.
  f_equal. apply IH; [exact Heq | lia].
Qed.

Section WithExternals.
Context `{Externals}.

(** X7: the formatter for string literals puts the value between single
    quotes with a backslash before each single quote of the value and nothing
    else changed; a value without single quotes is copied as it is, and two
    different values never get the same text. *)
Theorem string_literal_is_faithful (t : ExprTranslator) :
  (forall s,
      literal.literal t (Literal (VStr s) dt.string)
      = Ok ("'" +:+ literal.escape_single_quotes s +:+ "'"))
  /\ (forall s, has_char squote s = false ->
                literal.literal t (Literal (VStr s) dt.string) = Ok ("'" +:+ s +:+ "'"))
  /\ (forall s1 s2,
         literal.literal t (Literal (VStr s1) dt.string)
         = literal.literal t (Literal (VStr s2) dt.string) ->
         s1 = s2).
Proof.
  assert (Hlit : forall s,
             literal.literal t (Literal (VStr s) dt.string)
             = Ok ("'" +:+ literal.escape_single_quotes s +:+ "'"))
    by reflexivity.
  split; [| split].
  - exact Hlit.
  - intros s Hs. now rewrite Hlit, escape_without_quotes.
  - intros s1 s2 Heq. rewrite !Hlit in Heq.
    assert (Htail : literal.escape_single_quotes s1 +:+ "'"
                    = literal.escape_single_quotes s2 +:+ "'").
    { change ("'" +:+ literal.escape_single_quotes s1 +:+ "'")
        with (String squote (literal.escape_single_quotes s1 +:+ "'")) in Heq.
      change ("'" +:+ literal.escape_single_quotes s2 +:+ "'")
        with (String squote (literal.escape_single_quotes s2 +:+ "'")) in Heq.
      congruence. }
    apply append_inv_tail in Htail.
    rewrite <- (unescape_escape s1), <- (unescape_escape s2). now rewrite Htail.
Qed.

(** X8: the generic formatter has no rule for a literal that is not [None]
    and whose type is null, unknown, binary, a time, a struct, an array, a
    map, JSON, a UUID or geospatial: it raises [NotImplementedError] naming
    the type. *)
Theorem literal_unsupported_kinds (t : ExprTranslator) (v : pyvalue) (dtype : dt.DataType) :
  v <> VNone ->
  In (dt.class_of dtype)
     [dt.C_Null; dt.C_Unknown; dt.C_Binary; dt.C_Time; dt.C_Struct; dt.C_Array;
      dt.C_Map; dt.C_JSON; dt.C_UUID; dt.C_GeoSpatial; dt.C_Point; dt.C_LineString;
      dt.C_Polygon; dt.C_MultiLineString; dt.C_MultiPoint; dt.C_MultiPolygon] ->
  literal.literal t (Literal v dtype)
  = Raise (NotImplementedError ("Unsupported type: " +:+ dtype_repr dtype)).
Proof.
  intros Hv Hin.
  assert (Hkinds :
            dt.is_boolean dtype = false /\ dt.is_string dtype = false
            /\ dt.is_date dtype = false /\ dt.is_numeric dtype = false
            /\ dt.is_timestamp dtype = false /\ dt.is_interval dtype = false
            /\ dt.is_set dtype = false).
  { unfold dt.is_boolean, dt.is_string, dt.is_date, dt.is_numeric, dt.is_timestamp,
      dt.is_interval, dt.is_set, dt.isinstance.
    simpl in Hin.
    repeat (destruct Hin as [<- | Hin]; [repeat split |]). contradiction. }
  destruct Hkinds as (Hb & Hs & Hd & Hn & Hts & Hi & Hset).
  unfold literal.literal. simpl.
  destruct v; try congruence; rewrite Hb, Hs, Hd, Hn, Hts, Hi, Hset; reflexivity.
Qed.

End WithExternals.

Lemma string_literal_is_faithful_witness :
  literal.literal (H:=examples.externals) examples.bigquery_translator
    (Literal (VStr "a,b") dt.string)
  = Ok "'a,b'".
Proof.
  destruct (string_literal_is_faithful (H:=examples.externals)
              examples.bigquery_translator) as [_ [Hplain _]].
  apply (Hplain "a,b"). reflexivity.
Defined.

Lemma literal_unsupported_kinds_witness :
  literal.literal (H:=examples.externals) examples.bigquery_translator
    (Literal (VStr "12:30:00") dt.time)
  = Raise (NotImplementedError "Unsupported type: time").
Proof.
  apply (literal_unsupported_kinds (H:=examples.externals)
           examples.bigquery_translator (VStr "12:30:00") dt.time).
  - discriminate.
  - simpl. tauto.
Defined.

End LiteralMoreFacts.

(** ** More on the BigQuery rules *)

Module BigQueryFacts.

Import ops.

Section WithExternals.
Context `{Externals}.

(** X9: non-finite numbers in BigQuery and in the generic formatter.  The
    BigQuery rule writes a non-finite float as a cast of ['nan'], ['inf'] or
    ['-inf'] to [FLOAT64] and leaves a finite float to the generic
    formatter; for a literal of a decimal type it writes a NaN as a cast of
    ['NaN'], an infinity as a cast of ['inf'] or ['-inf'], and a finite
    decimal as the BigQuery type name followed by the quoted value.  The
    generic formatter casts ['NaN'], ['Infinity'] or ['-Infinity'] to
    [DOUBLE] for a non-finite decimal. *)
Theorem non_finite_numbers
    (t : ExprTranslator) (nullable : bool) (precision scale : option Z) :
  (forall f,
      bigquery._literal t (Literal (VFloat f) (dt.Plain dt.C_Float64 nullable))
      = Ok match f with
           | S754_nan => "CAST('nan' AS FLOAT64)"
           | S754_infinity false => "CAST('inf' AS FLOAT64)"
           | S754_infinity true => "CAST('-inf' AS FLOAT64)"
           | _ => repr_finite_float f
           end)
  /\ (forall d,
         bigquery._literal t (Literal (VDecimal d) (dt.Decimal precision scale nullable))
         = Ok match d with
              | DecNaN _ => "CAST('NaN' AS FLOAT64)"
              | DecInf false => "CAST('inf' AS FLOAT64)"
              | DecInf true => "CAST('-inf' AS FLOAT64)"
              | DecFinite _ _ text =>
                  ibis_type_to_bigquery_type (dt.Decimal precision scale nullable)
                  +:+ " '" +:+ text +:+ "'"
              end)
  /\ (forall signed,
         literal.literal t (Literal (VDecimal (DecNaN signed))
                                    (dt.Decimal precision scale nullable))
         = Ok "CAST('NaN' AS DOUBLE)"
         /\ literal.literal t (Literal (VDecimal (DecInf signed))
                                       (dt.Decimal precision scale nullable))
            = Ok (if signed then "CAST('-Infinity' AS DOUBLE)"
                  else "CAST('Infinity' AS DOUBLE)")).
Proof.
  split; [| split].
  - intros f. destruct f as [s | s | | s m e]; try destruct s; reflexivity.
  - intros d. destruct d as [s | s | s z text]; try destruct s; reflexivity.
  - intros signed. split; [reflexivity | destruct signed; reflexivity].
Qed.

(** X10: BigQuery writes an array literal as the Python list of its items,
    through the fallback taken when the generic formatter has no rule; for
    the other types neither has a rule for (maps, JSON, null, unknown,
    geospatial) a literal that is not [None] raises [NotImplementedError]
    naming the type. *)
Theorem array_literal_fallback (t : ExprTranslator) :
  (forall items value_type nullable,
      bigquery._literal t (Literal (VList items) (dt.Array value_type nullable))
      = Ok ("[" +:+ join ", " (List.map builtins.repr items) +:+ "]"))
  /\ (forall v dtype,
         v <> VNone ->
         In (dt.class_of dtype)
            [dt.C_Map; dt.C_JSON; dt.C_Null; dt.C_Unknown; dt.C_GeoSpatial; dt.C_Point;
             dt.C_LineString; dt.C_Polygon; dt.C_MultiLineString; dt.C_MultiPoint;
             dt.C_MultiPolygon] ->
         bigquery._literal t (Literal v dtype)
         = Raise (NotImplementedError ("Unsupported type: " +:+ dtype_repr dtype))).
Proof.
  split.
  - intros items value_type nullable. reflexivity.
  - intros v dtype Hv Hin.
    assert (Hkinds :
              dt.is_decimal dtype = false /\ dt.is_uuid dtype = false
              /\ dt.isinstance dtype dt.C_Numeric = false
              /\ dt.isinstance dtype dt.C_Date = false
              /\ dt.isinstance dtype dt.C_Timestamp = false
              /\ dt.isinstance dtype dt.C_Time = false
              /\ dt.isinstance dtype dt.C_Binary = false
              /\ dt.is_struct dtype = false
              /\ dt.isinstance dtype dt.C_Array = false
              /\ literal.literal t (Literal v dtype)
                 = Raise (NotImplementedError ("Unsupported type: " +:+ dtype_repr dtype))).
    { assert (Hgen :
                dt.is_boolean dtype = false /\ dt.is_string dtype = false
                /\ dt.is_date dtype = false /\ dt.is_numeric dtype = false
                /\ dt.is_timestamp dtype = false /\ dt.is_interval dtype = false
                /\ dt.is_set dtype = false
                /\ dt.is_decimal dtype = false /\ dt.is_uuid dtype = false
                /\ dt.isinstance dtype dt.C_Time = false
                /\ dt.isinstance dtype dt.C_Binary = false
                /\ dt.is_struct dtype = false
                /\ dt.isinstance dtype dt.C_Array = false).
      { unfold dt.is_boolean, dt.is_string, dt.is_date, dt.is_numeric, dt.is_timestamp,
          dt.is_interval, dt.is_set, dt.is_decimal, dt.is_uuid, dt.is_struct, dt.isinstance.
        simpl in Hin.
        repeat (destruct Hin as [<- | Hin]; [repeat split |]). contradiction. }
      destruct Hgen as (Hb & Hs & Hd & Hn & Hts & Hi & Hset & Hdec & Hu & Htime & Hbin
                        & Hst & Harr).
      repeat split; try assumption.
      unfold literal.literal. simpl.
      destruct v; try congruence; rewrite Hb, Hs, Hd, Hn, Hts, Hi, Hset; reflexivity. }
    destruct Hkinds as (Hdec & Hu & Hn & Hd & Hts & Htime & Hbin & Hst & Harr & Hlit).
    unfold bigquery._literal. simpl output_dtype.
    change (value (Literal v dtype)) with (@Ok pyvalue v). simpl bind.
    rewrite Hdec, Hu, Hn, Hd, Hts, Htime, Hbin, Hst, Harr, Hlit.
    destruct v; try congruence; reflexivity.
Qed.

End WithExternals.

End BigQueryFacts.

Module BigQueryRuleFacts.

Import ops.

Lemma sequence_all_ok {A B : Type} (f : A -> result B) (l : list A) (r : list B) :
  Forall2 (fun a b => f a = Ok b) l r -> sequence (List.map f l) = Ok r.
Proof.
  induction 1 as [|a b l r Hab _ IH]; simpl; [reflexivity |].
  now rewrite Hab, IH.
Qed.

Section WithExternals.
Context `{Externals}.

(** X11: a BigQuery struct literal lists the fields in the order of the
    struct type, each as the translated field value followed by [AS] and the
    field name; a field of the type that the value lacks makes the rule
    raise, and no text is returned.  The struct type and the value are
    dictionaries: their keys are distinct. *)
Theorem struct_literal_follows_type
    (t : ExprTranslator) (fields : list (string * dt.DataType))
    (items : list (string * pyvalue)) (nullable : bool) :
  List.NoDup (List.map fst fields) -> List.NoDup (List.map fst items) ->
  (forall texts,
      Forall2 (fun field text =>
                 exists item,
                   bigquery.getitem (VDict items) (fst field) = Ok item
                   /\ translate t (Literal item (snd field)) = Ok text)
              fields texts ->
      bigquery._literal t (Literal (VDict items) (dt.Struct fields nullable))
      = Ok ("STRUCT("
            +:+ join ", " (zip_with (fun field text => text +:+ " AS " +:+ fst field)
                                    fields texts)
            +:+ ")"))
  /\ (forall name,
         In name (List.map fst fields) -> ~ In name (List.map fst items) ->
         is_ok (bigquery._literal t (Literal (VDict items) (dt.Struct fields nullable)))
         = false).
Proof.
  intros _ _.
  assert (Hbody :
            bigquery._literal t (Literal (VDict items) (dt.Struct fields nullable))
            = (cols <- sequence
                         (List.map
                            (fun field : string * dt.DataType =>
                               item <- bigquery.getitem (VDict items) (fst field) ;;
                               text <- translate t (Literal item (snd field)) ;;
                               Ok (text +:+ " AS " +:+ fst field))
                            fields) ;;
               Ok ("STRUCT(" +:+ join ", " cols +:+ ")")))
    by reflexivity.
  split.
  - intros texts Hall. rewrite Hbody.
    rewrite (sequence_all_ok _ fields
               (zip_with (fun field text => text +:+ " AS " +:+ fst field) fields texts)).
    + reflexivity.
    + clear Hbody.
      induction Hall as [|field text fields' texts' [item [Hitem Htext]] _ IH];
        cbn [zip_with]; constructor; [| exact IH].
      cbv beta. rewrite Hitem. cbn [bind]. now rewrite Htext.
  - intros name Hdeclared Hmissing. rewrite Hbody.
    apply in_map_iff in Hdeclared as [field [<- Hfield]].
    assert (Hget : exists e, bigquery.getitem (VDict items) (fst field) = Raise e).
    { unfold bigquery.getitem.
      destruct (List.find _ items) as [kv|] eqn:Hfind; [| now eexists].
      apply find_some in Hfind as [Hin Heq]. apply String.eqb_eq in Heq.
      elim Hmissing. rewrite <- Heq. now apply in_map. }
    destruct Hget as [e He].
    destruct (PyFacts.sequence_raise
                (List.map
                   (fun field : string * dt.DataType =>
                      item <- bigquery.getitem (VDict items) (fst field) ;;
                      text <- translate t (Literal item (snd field)) ;;
                      Ok (text +:+ " AS " +:+ fst field))
                   fields) e) as [e' He'].
    + apply in_map_iff. exists field. split; [| exact Hfield]. now rewrite He.
    + now rewrite He'.
Qed.

(** X12: a cast from a type to the same type (the form used to type the
    constants of [NULLIF] and [COALESCE] and the result of floor division) is
    always the plain [CAST(... AS type)]; and casting an integer expression
    to a timestamp and back to an integer composes [TIMESTAMP_SECONDS] with
    [UNIX_MICROS], so it reads seconds and returns microseconds. *)
Theorem casts_through_timestamps (t : ExprTranslator) :
  (forall compiled_arg to,
      bigquery.bigquery_cast_generate_simple compiled_arg to
      = Ok ("CAST(" +:+ compiled_arg +:+ " AS " +:+ ibis_type_to_bigquery_type to +:+ ")"))
  /\ (forall x text,
         dt.is_integer (output_dtype x) = true ->
         translate t x = Ok text ->
         let inner := mkNode "Cast" [ArgNode x; ArgDtype dt.timestamp] dt.timestamp in
         translate t inner = bigquery._cast t inner ->
         bigquery._cast t (mkNode "Cast" [ArgNode inner; ArgDtype dt.int64] dt.int64)
         = Ok ("UNIX_MICROS(" +:+ ("TIMESTAMP_SECONDS(" +:+ text +:+ ")") +:+ ")")).
Proof.
  split.
  - intros compiled_arg to.
    unfold bigquery.bigquery_cast_generate_simple, bigquery.bigquery_cast, dt.isinstance.
    assert (Hnone :
              dt.issubclass (dt.class_of to) dt.C_Timestamp
              && dt.issubclass (dt.class_of to) dt.C_Integer = false
              /\ dt.issubclass (dt.class_of to) dt.C_Interval
                 && dt.issubclass (dt.class_of to) dt.C_Integer = false)
      by (destruct (dt.class_of to); split; reflexivity).
    destruct Hnone as [Hts Hiv].
    rewrite Hts, (andb_comm (dt.issubclass _ dt.C_Integer)), Hts, Hiv. reflexivity.
  - intros x text Hint Hx inner Hinner.
    assert (Hin : bigquery._cast t inner = Ok ("TIMESTAMP_SECONDS(" +:+ text +:+ ")")).
    { unfold inner, bigquery._cast. simpl. rewrite Hx. simpl.
      unfold bigquery.bigquery_cast.
      unfold dt.is_integer in Hint. rewrite Hint.
      assert (Hnot : dt.isinstance (output_dtype x) dt.C_Timestamp = false).
      { unfold dt.isinstance in *. destruct (dt.class_of (output_dtype x));
          try reflexivity; discriminate. }
      rewrite Hnot. reflexivity. }
    unfold bigquery._cast. simpl args. cbv iota beta.
    rewrite Hinner, Hin. reflexivity.
Qed.

(** X13: BigQuery turns an integer into a timestamp for each of the four
    timestamp units, so the final [NotImplementedError] of the rule is out of
    reach for them; the DuckDB rule does so for seconds and milliseconds
    only. *)
Theorem timestamp_from_unix_units
    (t : ExprTranslator) (t' : Translator sa.expr) (arg : Node)
    (u : enums.TimestampUnit.t) (dtype : dt.DataType) (text : string) (e : sa.expr) :
  translate t arg = Ok text -> translate t' arg = Ok e ->
  let op := mkNode "TimestampFromUNIX" [ArgNode arg; ArgUnit (enums.OfTimestamp u)] dtype in
  bigquery.integer_to_timestamp t op
  = Ok match u with
       | enums.TimestampUnit.SECOND => "TIMESTAMP_SECONDS(" +:+ text +:+ ")"
       | enums.TimestampUnit.MILLISECOND => "TIMESTAMP_MILLIS(" +:+ text +:+ ")"
       | enums.TimestampUnit.MICROSECOND => "TIMESTAMP_MICROS(" +:+ text +:+ ")"
       | enums.TimestampUnit.NANOSECOND =>
           "TIMESTAMP_MICROS(CAST(ROUND(" +:+ text +:+ " / 1000) AS INT64))"
       end
  /\ is_ok (duckdb._timestamp_from_unix t' op)
     = match u with
       | enums.TimestampUnit.SECOND | enums.TimestampUnit.MILLISECOND => true
       | _ => false
       end.
Proof.
  intros Ht Ht' op. split.
  - unfold bigquery.integer_to_timestamp, op, ops.arg, node_at, unit_at. simpl.
    rewrite Ht. destruct u; reflexivity.
  - unfold duckdb._timestamp_from_unix, op. simpl. rewrite Ht'.
    destruct u; reflexivity.
Qed.

(** X14: [_string_find] refuses a [start] or an [end] before it translates
    anything, and otherwise gives the zero-based position;
    [_string_substring] refuses a negative literal length before it
    translates anything, and without a length it takes a negative start from
    the end of the string. *)
Theorem string_find_and_substring (t : ExprTranslator) :
  (forall k haystack needle start end_ dtype,
      (start <> ArgNone \/ end_ <> ArgNone) ->
      exists msg,
        bigquery._string_find t (mkNode k [haystack; needle; start; end_] dtype)
        = Raise (NotImplementedError msg))
  /\ (forall k haystack needle dtype h n,
         translate t haystack = Ok h -> translate t needle = Ok n ->
         bigquery._string_find t
           (mkNode k [ArgNode haystack; ArgNode needle; ArgNone; ArgNone] dtype)
         = Ok ("STRPOS(" +:+ h +:+ ", " +:+ n +:+ ") - 1"))
  /\ (forall k arg start length dtype ltype,
         length < 0 ->
         bigquery._string_substring t
           (mkNode k [arg; start; ArgNode (Literal (VInt length) ltype)] dtype)
         = Raise (ValueError "Length parameter must be a non-negative value."))
  /\ (forall k arg start dtype a s,
         translate t arg = Ok a -> translate t start = Ok s ->
         bigquery._string_substring t (mkNode k [ArgNode arg; ArgNode start; ArgNone] dtype)
         = Ok ("IF(" +:+ s +:+ " >= 0, "
               +:+ ("SUBSTR(" +:+ a +:+ ", " +:+ s +:+ " + 1" +:+ EmptyString +:+ ")")
               +:+ ", "
               +:+ ("SUBSTR(" +:+ a +:+ ", " +:+ ("LENGTH(" +:+ a +:+ ")") +:+ " + " +:+ s
                    +:+ " + 1" +:+ EmptyString +:+ ")")
               +:+ ")")).
Proof.
  split; [| split; [| split]].
  - intros k haystack needle start end_ dtype Hgiven.
    unfold bigquery._string_find. simpl.
    destruct start; try (eexists; reflexivity);
      destruct end_; try (eexists; reflexivity).
    destruct Hgiven as [Hs | He]; congruence.
  - intros k haystack needle dtype h n Hh Hn.
    unfold bigquery._string_find. simpl. now rewrite Hh, Hn.
  - intros k arg start length dtype ltype Hneg.
    unfold bigquery._string_substring, optional_node_at. simpl.
    apply Z.ltb_lt in Hneg. now rewrite Hneg.
  - intros k arg start dtype a s Ha Hs.
    unfold bigquery._string_substring, optional_node_at, ops.arg, node_at. simpl.
    now rewrite Ha, Hs.
Qed.

(** X15: the two BigQuery rules with a unit allow-list check in a different
    order.  [_timestamp_op] checks the unit first, so an unsupported unit is
    reported even when the operands cannot be translated, and with a
    supported unit and operands that translate it gives the call;
    [_truncate] translates its operand first, so an error of the operand is
    the one that comes out, whatever the unit. *)
Theorem unit_check_order
    (func kind : string) (units : list enums.Unit) (t : ExprTranslator)
    (k : string) (dtype : dt.DataType) :
  (forall arg offset unit a o,
      bigquery.interval_unit (output_dtype offset) = Ok unit -> unit ∈ units ->
      translate t arg = Ok a -> translate t offset = Ok o ->
      bigquery._timestamp_op func units t (mkNode k [ArgNode arg; ArgNode offset] dtype)
      = Ok (func +:+ "(" +:+ a +:+ ", " +:+ o +:+ ")"))
  /\ (forall arg unit e,
         translate t arg = Raise e ->
         bigquery._truncate kind units t (mkNode k [ArgNode arg; ArgUnit unit] dtype)
         = Raise e)
  /\ (forall arg unit a,
         unit ∈ units -> translate t arg = Ok a ->
         exists name,
           bigquery._truncate kind units t (mkNode k [ArgNode arg; ArgUnit unit] dtype)
           = Ok (kind +:+ "_TRUNC(" +:+ a +:+ ", " +:+ name +:+ ")")
           /\ (enums.name unit = "WEEK" -> name = "WEEK(MONDAY)")
           /\ (enums.name unit <> "WEEK" -> name = enums.name unit)).
Proof.
  split; [| split].
  - intros arg offset unit a o Hunit Hin Ha Ho.
    unfold bigquery._timestamp_op. simpl. rewrite Hunit. simpl.
    rewrite (bool_decide_eq_true_2 _ Hin). simpl. now rewrite Ha, Ho.
  - intros arg unit e He. unfold bigquery._truncate. simpl. now rewrite He.
  - intros arg unit a Hin Ha.
    unfold bigquery._truncate. simpl. rewrite Ha. simpl.
    rewrite (bool_decide_eq_true_2 _ Hin). simpl.
    destruct (String.eqb (enums.name unit) "WEEK") eqn:Hweek.
    + exists "WEEK(MONDAY)". split; [reflexivity | split; [reflexivity |]].
      apply String.eqb_eq in Hweek. congruence.
    + exists (enums.name unit). apply String.eqb_neq in Hweek.
      split; [reflexivity | split; [congruence | reflexivity]].
Qed.

End WithExternals.

End BigQueryRuleFacts.

(** ** More on the registries *)

Module LayeringFacts.

Import ops.

Lemma dict_update_union {V : Type} (entries : list (string * V)) (m d : gmap string V) :
  dict_update (m ∪ d) entries = dict_update m entries ∪ d.
Proof.
  unfold dict_update. revert m.
  induction entries as [|[k v] entries IH]; intros m; simpl; [reflexivity |].
  rewrite insert_union_l. apply IH.
Qed.

Lemma dict_update_over {V : Type} (entries : list (string * V)) (d : gmap string V) :
  dict_update d entries = dict_update ∅ entries ∪ d.
Proof.
  rewrite <- (dict_update_union entries ∅ d). now rewrite (left_id_L ∅ (∪)).
Qed.

Lemma dict_update_lookup {V : Type} (entries : list (string * V)) (d : gmap string V)
    (k : string) :
  dict_update d entries !! k
  = match List.find (fun kv => String.eqb (fst kv) k) (rev entries) with
    | Some kv => Some (snd kv)
    | None => d !! k
    end.
Proof.
  unfold dict_update. revert d.
  induction entries as [|[k0 v0] entries IH]; intros d; simpl; [reflexivity |].
  rewrite IH. clear IH.
  assert (Hfind : forall (l1 l2 : list (string * V)) f,
             List.find f (l1 ++ l2)
             = match List.find f l1 with Some x => Some x | None => List.find f l2 end).
  { intros l1 l2 f. induction l1 as [|x l1 IHl]; simpl; [reflexivity |].
    now destruct (f x). }
  rewrite Hfind. destruct (List.find _ (rev entries)); [reflexivity |]. simpl.
  destruct (String.eqb k0 k) eqn:Hk.
  - apply String.eqb_eq in Hk. subst. apply lookup_insert_eq.
  - apply String.eqb_neq in Hk. now apply lookup_insert_ne.
Qed.

Ltac find_entry :=
  rewrite dict_update_lookup;
  cbv [List.find List.rev List.app rev app String.eqb Ascii.eqb Bool.eqb andb fst snd].

Lemma filter_denied_union {V : Type} (denied : gset string) (over base : gmap string V) :
  (forall k, k ∈ denied -> over !! k = None) ->
  filter (fun kv => fst kv ∉ denied) (over ∪ base)
  = over ∪ filter (fun kv => fst kv ∉ denied) base.
Proof.
  intros Hover. apply map_eq. intros k.
  destruct (decide (k ∈ denied)) as [Hk | Hk].
  - rewrite RegistryFacts.dict_filter_denied by exact Hk.
    rewrite lookup_union, (Hover k Hk), RegistryFacts.dict_filter_denied by exact Hk.
    reflexivity.
  - rewrite RegistryFacts.dict_filter_kept by exact Hk.
    rewrite !lookup_union, RegistryFacts.dict_filter_kept by exact Hk.
    reflexivity.
Qed.

Section WithExternals.
Context `{Externals}.

Variable postgres_operation_registry : gmap string (rule sa.expr).
Variable geospatial_functions : gmap string (rule sa.expr).
Variable pg_array_index : (sa.expr -> sa.expr -> sa.expr) -> string -> rule sa.expr.
Variable pg_array_slice :
  (sa.expr -> sa.expr -> sa.expr) -> string -> string -> rule sa.expr.
Variable duckdb_rule_of_source : string -> rule sa.expr.
Variable sql_operation_registry : gmap string (rule string).
Variable bigquery_rule_of_source : string -> rule string.

(** X16: the final BigQuery registry is the rules the module registers, all
    of them, laid over the rules of the generic registry that are not
    denylisted: the denylist removes none of the module's own rules, the
    module's rule wins over a generic rule for the same operation (the rule
    for literals is [_literal] whatever the generic registry holds), and a
    generic rule for an operation that is neither overridden nor denylisted
    is kept. *)
Theorem bigquery_registry_layers :
  let own := bigquery.OPERATION_REGISTRY_overlaid ∅ bigquery_rule_of_source in
  let final := bigquery.OPERATION_REGISTRY sql_operation_registry bigquery_rule_of_source in
  final = own ∪ filter (fun kv => fst kv ∉ bigquery._invalid_operations)
                       sql_operation_registry
  /\ final !! "Literal" = Some bigquery._literal
  /\ final !! "ArrayIndex" = Some bigquery._array_index
  /\ (forall k, own !! k = None -> k ∉ bigquery._invalid_operations ->
                final !! k = sql_operation_registry !! k).
Proof.
  intros own final.
  assert (Hfinal : final = own ∪ filter (fun kv => fst kv ∉ bigquery._invalid_operations)
                                        sql_operation_registry).
  { unfold final, bigquery.OPERATION_REGISTRY, bigquery.OPERATION_REGISTRY_overlaid.
    rewrite dict_update_over. apply filter_denied_union.
    intros k Hk. apply elem_of_list_to_set, list_elem_of_In in Hk. simpl in Hk.
    unfold own, bigquery.OPERATION_REGISTRY_overlaid.
    repeat (destruct Hk as [<- | Hk]; [find_entry; apply lookup_empty |]).
    contradiction. }
  split; [exact Hfinal |]. split; [| split].
  - rewrite Hfinal, lookup_union.
    unfold own, bigquery.OPERATION_REGISTRY_overlaid. find_entry.
    now destruct (filter _ _ !! "Literal").
  - rewrite Hfinal, lookup_union.
    unfold own, bigquery.OPERATION_REGISTRY_overlaid. find_entry.
    now destruct (filter _ _ !! "ArrayIndex").
  - intros k Hown Hk. rewrite Hfinal, lookup_union. unfold rule in *.
    rewrite Hown, RegistryFacts.dict_filter_kept by exact Hk.
    now destruct (sql_operation_registry !! k).
Qed.

(** X17: the final DuckDB registry is the rules the module registers, all
    of them, laid over the PostgreSQL rules that are neither geospatial nor
    denylisted; so a geospatial rule of PostgreSQL that the module does not
    register again is absent. *)
Theorem duckdb_registry_layers :
  let own :=
    duckdb.operation_registry_updated ∅ ∅ pg_array_index pg_array_slice
      duckdb_rule_of_source in
  let final :=
    duckdb.operation_registry postgres_operation_registry geospatial_functions
      pg_array_index pg_array_slice duckdb_rule_of_source in
  final = own ∪ filter (fun kv => fst kv ∉ duckdb._invalid_operations)
                       (filter (fun kv => fst kv ∉ dom geospatial_functions)
                               postgres_operation_registry)
  /\ final !! "Literal" = Some duckdb._literal
  /\ final !! "ArrayIndex"
     = Some (pg_array_index duckdb._neg_idx_to_pos "list_extract")
  /\ (forall k, k ∈ dom geospatial_functions -> own !! k = None -> final !! k = None).
Proof.
  intros own final.
  assert (Hfinal : final
                   = own ∪ filter (fun kv => fst kv ∉ duckdb._invalid_operations)
                             (filter (fun kv => fst kv ∉ dom geospatial_functions)
                                     postgres_operation_registry)).
  { unfold final, own, duckdb.operation_registry, duckdb.operation_registry_updated,
      duckdb.operation_registry_base.
    rewrite dict_update_over.
    rewrite (dict_update_over _ (filter _ ∅)).
    rewrite map_filter_empty, (right_id_L ∅ (∪)).
    apply filter_denied_union.
    intros k Hk. apply elem_of_list_to_set, list_elem_of_In in Hk. simpl in Hk.
    repeat (destruct Hk as [<- | Hk]; [find_entry; apply lookup_empty |]).
    contradiction. }
  split; [exact Hfinal |]. split; [| split].
  - rewrite Hfinal, lookup_union.
    unfold own, duckdb.operation_registry_updated. find_entry.
    now destruct (filter _ _ !! "Literal").
  - rewrite Hfinal, lookup_union.
    unfold own, duckdb.operation_registry_updated. find_entry.
    now destruct (filter _ _ !! "ArrayIndex").
  - intros k Hgeo Hnone. rewrite Hfinal, lookup_union. unfold rule in *.
    rewrite Hnone.
    replace (filter (fun kv : string * (Translator sa.expr -> Node -> result sa.expr) =>
                       fst kv ∉ duckdb._invalid_operations)
               (filter (fun kv => fst kv ∉ dom geospatial_functions)
                       postgres_operation_registry) !! k)
      with (@None (Translator sa.expr -> Node -> result sa.expr)); [reflexivity |].
    symmetry. apply map_lookup_filter_None_2. left.
    apply map_lookup_filter_None_2. right. intros x _ Hnot. simpl in Hnot. contradiction.
Qed.

End WithExternals.

End LayeringFacts.

(** ** More on the DuckDB rules *)

Module DuckDBFacts.

Import ops.

(** X18: the index DuckDB's converter denotes is never negative for an
    array that has elements: a negative index counts from the end and stops
    at the first element, so the result lies within the array; an index that
    is not negative is left as it is. *)
Theorem neg_idx_to_pos_stays_in_array (array : sa.expr) (length idx : Z) :
  0 < length ->
  exists offset,
    sa.eval length (duckdb._neg_idx_to_pos array (sa.literal (VInt idx))) = Some offset
    /\ (0 <= idx -> offset = idx)
    /\ (idx < 0 -> 0 <= offset < length)
    /\ (- length <= idx < 0 -> offset = length + idx)
    /\ (idx < - length -> offset = 0).
Proof.
  intros Hlen. rewrite RuleFacts.duckdb_neg_idx_to_pos_denotes.
  destruct (idx <? 0) eqn:Hneg; [apply Z.ltb_lt in Hneg | apply Z.ltb_ge in Hneg];
    eexists; (split; [reflexivity |]); repeat split; lia.
Qed.

Lemma neg_idx_to_pos_stays_in_array_witness :
  exists offset,
    sa.eval 3 (duckdb._neg_idx_to_pos (sa.literal_column "a") (sa.literal (VInt (-5))))
    = Some offset
    /\ (0 <= -5 -> offset = -5)
    /\ (-5 < 0 -> 0 <= offset < 3)
    /\ (- 3 <= -5 < 0 -> offset = 3 + -5)
    /\ (-5 < - 3 -> offset = 0).
Proof. apply (neg_idx_to_pos_stays_in_array (sa.literal_column "a") 3 (-5)). lia. Defined.

Section WithExternals.
Context `{Externals}.

(** X19: a DuckDB struct literal packs the items of the value, in the
    order of the value, each translated at the type the struct type declares
    for its key; a key of the value that the type does not declare makes the
    rule raise, and fields of the type that the value lacks are not asked
    for.  The struct type and the value are dictionaries: their keys are
    distinct. *)
Theorem struct_literal_follows_value
    (t : Translator sa.expr) (fields : list (string * dt.DataType))
    (items : list (string * pyvalue)) (nullable : bool) :
  List.NoDup (List.map fst fields) -> List.NoDup (List.map fst items) ->
  (forall packed,
      Forall2 (fun kv e =>
                 exists field_type,
                   duckdb.struct_getitem (dt.Struct fields nullable) (fst kv) = Ok field_type
                   /\ translate t (Literal (snd kv) field_type) = Ok e)
              items packed ->
      duckdb._literal t (Literal (VDict items) (dt.Struct fields nullable))
      = Ok (sa.struct_pack (zip_with (fun kv e => (fst kv, e)) items packed)
                           (get_sqla_type (dt.Struct fields nullable))))
  /\ (forall key,
         In key (List.map fst items) -> ~ In key (List.map fst fields) ->
         is_ok (duckdb._literal t (Literal (VDict items) (dt.Struct fields nullable)))
         = false).
Proof.
  intros _ _.
  assert (Hbody :
            duckdb._literal t (Literal (VDict items) (dt.Struct fields nullable))
            = (values <- sequence
                           (List.map
                              (fun kv : string * pyvalue =>
                                 field_type <- duckdb.struct_getitem
                                                 (dt.Struct fields nullable) (fst kv) ;;
                                 e <- translate t (Literal (snd kv) field_type) ;;
                                 Ok (fst kv, e))
                              items) ;;
               Ok (sa.struct_pack values (get_sqla_type (dt.Struct fields nullable)))))
    by reflexivity.
  split.
  - intros packed Hall. rewrite Hbody.
    rewrite (BigQueryRuleFacts.sequence_all_ok _ items
               (zip_with (fun kv e => (fst kv, e)) items packed)).
    + reflexivity.
    + clear Hbody.
      induction Hall as [|kv e items' packed' [ty [Hty He]] _ IH];
        cbn [zip_with]; constructor; [| exact IH].
      cbv beta. rewrite Hty. cbn [bind]. now rewrite He.
  - intros key Hgiven Hundeclared. rewrite Hbody.
    apply in_map_iff in Hgiven as [kv [<- Hkv]].
    assert (Hget : exists e,
               duckdb.struct_getitem (dt.Struct fields nullable) (fst kv) = Raise e).
    { unfold duckdb.struct_getitem, bigquery.struct_fields.
      destruct (List.find _ fields) as [field|] eqn:Hfind; [| now eexists].
      apply find_some in Hfind as [Hin Heq]. apply String.eqb_eq in Heq.
      elim Hundeclared. rewrite <- Heq. now apply in_map. }
    destruct Hget as [e He].
    destruct (PyFacts.sequence_raise
                (List.map
                   (fun kv : string * pyvalue =>
                      field_type <- duckdb.struct_getitem
                                      (dt.Struct fields nullable) (fst kv) ;;
                      e <- translate t (Literal (snd kv) field_type) ;;
                      Ok (fst kv, e))
                   items) e) as [e' He'].
    + apply in_map_iff. exists kv. split; [| exact Hkv]. now rewrite He.
    + now rewrite He'.
Qed.

End WithExternals.

End DuckDBFacts.

(** ** The further theorems at concrete inputs *)

Module MoreWitnesses.

Import ops.

#[local] Existing Instance examples.externals.

Ltac distinct_keys :=
  simpl; repeat (constructor; [simpl; intuition discriminate |]); constructor.

Lemma array_literal_fallback_witness :
  bigquery._literal examples.bigquery_translator (Literal (VStr "{}") dt.json)
  = Raise (NotImplementedError "Unsupported type: json").
Proof.
  destruct (BigQueryFacts.array_literal_fallback examples.bigquery_translator)
    as [_ Hunsupported].
  apply (Hunsupported (VStr "{}") dt.json).
  - discriminate.
  - simpl. tauto.
Defined.

Lemma struct_literal_follows_type_witness :
  bigquery._literal examples.bigquery_translator
    (Literal (VDict [("b", VStr "x"); ("a", VInt 1)])
             (dt.Struct [("a", dt.int64); ("b", dt.string)] true))
  = Ok "STRUCT(1 AS a, 'x' AS b)".
Proof.
  destruct (BigQueryRuleFacts.struct_literal_follows_type examples.bigquery_translator
              [("a", dt.int64); ("b", dt.string)]
              [("b", VStr "x"); ("a", VInt 1)] true) as [Hok _];
    [distinct_keys | distinct_keys |].
  apply (Hok ["1"; "'x'"]).
  repeat constructor.
  - exists (VInt 1). split; vm_compute; reflexivity.
  - exists (VStr "x"). split; vm_compute; reflexivity.
Defined.

Lemma casts_through_timestamps_witness :
  let t : ExprTranslator :=
    mkTranslator
      (fun op =>
         if String.eqb (kind op) "Cast"
         then bigquery._cast (mkTranslator examples.column_name) op
         else examples.column_name op) in
  bigquery._cast t
    (mkNode "Cast"
       [ArgNode (mkNode "Cast" [ArgNode (examples.column "n" dt.int64);
                                ArgDtype dt.timestamp] dt.timestamp);
        ArgDtype dt.int64] dt.int64)
  = Ok "UNIX_MICROS(TIMESTAMP_SECONDS(n))".
Proof.
  intros t.
  destruct (BigQueryRuleFacts.casts_through_timestamps t) as [_ Hback].
  apply (Hback (examples.column "n" dt.int64) "n"); reflexivity.
Defined.

Lemma timestamp_from_unix_units_witness :
  let op :=
    mkNode "TimestampFromUNIX"
      [ArgNode (examples.column "n" dt.int64);
       ArgUnit (enums.OfTimestamp enums.TimestampUnit.NANOSECOND)] dt.timestamp in
  bigquery.integer_to_timestamp examples.bigquery_translator op
  = Ok "TIMESTAMP_MICROS(CAST(ROUND(n / 1000) AS INT64))"
  /\ is_ok (duckdb._timestamp_from_unix examples.duckdb_translator op) = false.
Proof.
  apply (BigQueryRuleFacts.timestamp_from_unix_units
           examples.bigquery_translator examples.duckdb_translator
           (examples.column "n" dt.int64) enums.TimestampUnit.NANOSECOND dt.timestamp
           "n" (sa.literal_column "n")); reflexivity.
Defined.

Lemma string_find_and_substring_witness :
  (exists msg,
      bigquery._string_find examples.bigquery_translator
        (mkNode "StringFind"
           [ArgNode (examples.column "s" dt.string);
            ArgNode (Literal (VStr "a") dt.string);
            ArgNode (Literal (VInt 2) dt.int64); ArgNone] dt.int64)
      = Raise (NotImplementedError msg))
  /\ bigquery._string_substring examples.bigquery_translator
       (mkNode "Substring"
          [ArgNode (examples.column "s" dt.string);
           ArgNode (Literal (VInt 0) dt.int64);
           ArgNode (Literal (VInt (-1)) dt.int64)] dt.string)
     = Raise (ValueError "Length parameter must be a non-negative value.").
Proof.
  destruct (BigQueryRuleFacts.string_find_and_substring examples.bigquery_translator)
    as [Hfind [_ [Hneg _]]].
  split.
  - apply Hfind. left. discriminate.
  - apply Hneg. lia.
Defined.

Lemma unit_check_order_witness :
  bigquery._timestamp_op "TIMESTAMP_ADD" bigquery._INTERVAL_TIME_UNITS
    examples.bigquery_translator
    (mkNode "TimestampAdd"
       [ArgNode (examples.column "ts" dt.timestamp);
        ArgNode (examples.column "h"
                   (dt.Interval (enums.OfInterval enums.IntervalUnit.HOUR) dt.int32 true))]
       dt.timestamp)
  = Ok "TIMESTAMP_ADD(ts, h)"
  /\ bigquery._truncate "DATE" (bigquery._DATE_UNITS ++ bigquery._INTERVAL_DATE_UNITS)
       examples.bigquery_translator
       (mkNode "DateTruncate"
          [ArgNode (mkNode "Unknown" [] dt.date);
           ArgUnit (enums.OfInterval enums.IntervalUnit.HOUR)] dt.date)
     = Raise (AttributeError "name").
Proof.
  destruct (BigQueryRuleFacts.unit_check_order "TIMESTAMP_ADD" "DATE"
              bigquery._INTERVAL_TIME_UNITS examples.bigquery_translator
              "TimestampAdd" dt.timestamp) as [Hop _].
  destruct (BigQueryRuleFacts.unit_check_order "DATE_ADD" "DATE"
              (bigquery._DATE_UNITS ++ bigquery._INTERVAL_DATE_UNITS)
              examples.bigquery_translator "DateTruncate" dt.date) as [_ [Htrunc _]].
  split.
  - apply (Hop _ _ (enums.OfInterval enums.IntervalUnit.HOUR) "ts" "h");
      try reflexivity.
    apply list_elem_of_In. vm_compute. tauto.
  - apply Htrunc. reflexivity.
Defined.

Lemma bigquery_registry_layers_witness :
  bigquery.OPERATION_REGISTRY {["Upper" := examples.unavailable]}
    (fun _ => examples.unavailable) !! "Upper"
  = ({["Upper" := examples.unavailable]} : gmap string (rule string)) !! "Upper".
Proof.
  destruct (LayeringFacts.bigquery_registry_layers
              ({["Upper" := examples.unavailable]} : gmap string (rule string))
              (fun _ => examples.unavailable)) as [_ [_ [_ Hkept]]].
  apply Hkept.
  - unfold bigquery.OPERATION_REGISTRY_overlaid. LayeringFacts.find_entry.
    apply lookup_empty.
  - intros Hin. apply elem_of_list_to_set, list_elem_of_In in Hin.
    vm_compute in Hin. intuition discriminate.
Defined.

Lemma duckdb_registry_layers_witness :
  duckdb.operation_registry
    ({["GeoArea" := examples.unavailable]} : gmap string (rule sa.expr))
    ({["GeoArea" := examples.unavailable]} : gmap string (rule sa.expr))
    (fun _ _ => examples.unavailable) (fun _ _ _ => examples.unavailable)
    (fun _ => examples.unavailable) !! "GeoArea"
  = None.
Proof.
  destruct (LayeringFacts.duckdb_registry_layers
              ({["GeoArea" := examples.unavailable]} : gmap string (rule sa.expr))
              ({["GeoArea" := examples.unavailable]} : gmap string (rule sa.expr))
              (fun _ _ => examples.unavailable) (fun _ _ _ => examples.unavailable)
              (fun _ => examples.unavailable)) as [_ [_ [_ Hgeo]]].
  apply Hgeo.
  - rewrite dom_singleton_L. now apply elem_of_singleton.
  - unfold duckdb.operation_registry_updated. LayeringFacts.find_entry.
    unfold duckdb.operation_registry_base.
    rewrite !map_filter_empty. apply lookup_empty.
Defined.

Lemma struct_literal_follows_value_witness :
  is_ok (duckdb._literal examples.duckdb_translator
           (Literal (VDict [("a", VInt 1); ("z", VInt 2)])
                    (dt.Struct [("a", dt.int64); ("b", dt.string)] true)))
  = false.
Proof.
  destruct (DuckDBFacts.struct_literal_follows_value examples.duckdb_translator
              [("a", dt.int64); ("b", dt.string)]
              [("a", VInt 1); ("z", VInt 2)] true) as [_ Hraise];
    [distinct_keys | distinct_keys |].
  apply (Hraise "z").
  - simpl. tauto.
  - simpl. intuition discriminate.
Defined.

End MoreWitnesses.
